(** * Webhook receiver: event normalisation, dispatch and the read path

    A shallow embedding of [src/app.py]: the timestamp formatter, the three
    event normalisers, the [/webhook] handler and the [/api/events] handler,
    followed by the properties proved about them.

    Python values are dynamically typed, so the payload, the event record
    and the stored documents are all values of one type [pyval]; a [dict]
    is a finite map from strings.  An expression that can raise is a
    computation in the error monad [result]. *)

From Stdlib Require Import ZArith String Ascii List Bool Lia.
From Stdlib Require Import Numbers.DecimalString Numbers.DecimalZ Numbers.DecimalPos.
From Stdlib Require Import Floats.PrimFloat.
From stdpp Require Import base option gmap strings list sorting.

Local Open Scope string_scope.
Local Open Scope Z_scope.
Local Open Scope list_scope.

Set Warnings "-register-all".

(** * The program *)

(** ** Python values *)

(** What [json] parsing yields (None, bool, int, float, str, list, dict),
    plus the two non-JSON values the handlers put into a document: the
    [datetime] of [utcnow()] and the [ObjectId] the driver assigns. *)
Inductive pyval : Type :=
| VNone
| VBool (b : bool)
| VInt (z : Z)
| VFloat (f : float)
| VStr (s : string)
| VList (l : list pyval)
| VDict (d : gmap string pyval)
| VDatetime (t : Z)
| VObjectId (n : N).

Abbreviation pydict := (gmap string pyval).

(** The exceptions that the modelled expressions raise. *)
Inductive exn : Type :=
| AttributeError
| TypeError
| ValueError.

Inductive result (A : Type) : Type :=
| Ok (a : A)
| Raise (e : exn).
Arguments Ok {A} a.
Arguments Raise {A} e.

#[global] Instance result_ret : MRet result := fun _ a => Ok a.
#[global] Instance result_bind : MBind result := fun _ _ f r =>
  match r with
  | Ok a => f a
  | Raise e => Raise e
  end.
#[global] Instance result_fmap : FMap result := fun _ _ f r =>
  match r with
  | Ok a => Ok (f a)
  | Raise e => Raise e
  end.

(** [bool(v)]: Python's truth value. *)
Definition truthy (v : pyval) : bool :=
  match v with
  | VNone => false
  | VBool b => b
  | VInt z => negb (z =? 0)
  | VFloat f => negb (PrimFloat.eqb f 0%float)
  | VStr s => negb (String.eqb s "")
  | VList l => match l with [] => false | _ :: _ => true end
  | VDict d => negb (Nat.eqb (size d) 0)
  | VDatetime _ => true
  | VObjectId _ => true
  end.

(** [v == s] for a string literal [s]. *)
Definition py_eq_str (v : pyval) (s : string) : bool :=
  match v with
  | VStr t => String.eqb t s
  | _ => false
  end.

(** [v.get(key, dflt)]: only a dict has the attribute. *)
Definition py_get (v : pyval) (key : string) (dflt : pyval) : result pyval :=
  match v with
  | VDict d => Ok (default dflt (d !! key))
  | _ => Raise AttributeError
  end.

(** ** [str.replace] *)

(** [replace_from skip old new s]: the text of [s] with the first [skip]
    characters dropped (they belong to an occurrence already replaced) and,
    from there on, every occurrence of [old], found left to right without
    overlap, replaced by [new].  [old] is not empty. *)
Fixpoint replace_from (skip : nat) (old new s : string) : string :=
  match s with
  | EmptyString => EmptyString
  | String c s' =>
      match skip with
      | S k => replace_from k old new s'
      | O =>
          if String.prefix old s
          then new +:+ replace_from (Nat.pred (String.length old)) old new s'
          else String c (replace_from O old new s')
      end
  end.

Definition replace (old new s : string) : string := replace_from O old new s.

(** [v.replace(old, new)] with string arguments: [str] has the method,
    [datetime] has one that refuses strings, nothing else has it. *)
Definition py_replace (v : pyval) (old new : string) : result pyval :=
  match v with
  | VStr s => Ok (VStr (replace old new s))
  | VDatetime _ => Raise TypeError
  | _ => Raise AttributeError
  end.

(** ** Dates: [datetime.fromisoformat] and [strftime] *)

Module Datetime.

(** The wall-clock fields of a [datetime] and its offset from UTC, in
    microseconds, when it has one.  The offset is kept as the text gives
    it (some interpreters read an offset of less than a second as UTC);
    the program never reads it. *)
Record t : Type := mk {
  year : Z; month : Z; day : Z;
  hour : Z; minute : Z; second : Z; microsecond : Z;
  utcoffset : option Z
}.

Definition digit_val (c : ascii) : option Z :=
  let n := Z.of_nat (nat_of_ascii c) in
  if (48 <=? n) && (n <=? 57) then Some (n - 48) else None.

(** Reads exactly [n] decimal digits. *)
Fixpoint parse_digits (n : nat) (acc : Z) (s : string) : option (Z * string) :=
  match n with
  | O => Some (acc, s)
  | S n' =>
      match s with
      | EmptyString => None
      | String c s' =>
          match digit_val c with
          | Some d => parse_digits n' (10 * acc + d) s'
          | None => None
          end
      end
  end.

Definition expect (c : ascii) (s : string) : option string :=
  match s with
  | String c' s' => if Ascii.eqb c c' then Some s' else None
  | EmptyString => None
  end.

(** [YYYY-MM-DD], returning what follows it. *)
Definition parse_isoformat_date (s : string) : option (Z * Z * Z * string) :=
  '(y, s) ← parse_digits 4 0 s;
  s ← expect "-" s;
  '(m, s) ← parse_digits 2 0 s;
  s ← expect "-" s;
  '(d, s) ← parse_digits 2 0 s;
  Some (y, m, d, s).

(** [.fff] or [.ffffff] up to the end of the text, in microseconds. *)
Definition parse_fraction (s : string) : option Z :=
  s ← expect "." s;
  match String.length s with
  | 3%nat => '(f, _) ← parse_digits 3 0 s; Some (f * 1000)
  | 6%nat => '(f, _) ← parse_digits 6 0 s; Some f
  | _ => None
  end.

(** [HH[:MM[:SS[.fff[fff]]]]], the whole of [s]. *)
Definition parse_hh_mm_ss_ff (s : string) : option (Z * Z * Z * Z) :=
  '(h, s) ← parse_digits 2 0 s;
  match s with
  | EmptyString => Some (h, 0, 0, 0)
  | _ =>
      s ← expect ":" s;
      '(m, s) ← parse_digits 2 0 s;
      match s with
      | EmptyString => Some (h, m, 0, 0)
      | _ =>
          s ← expect ":" s;
          '(sec, s) ← parse_digits 2 0 s;
          match s with
          | EmptyString => Some (h, m, sec, 0)
          | _ => f ← parse_fraction s; Some (h, m, sec, f)
          end
      end
  end.

Definition is_sign (c : ascii) : bool := Ascii.eqb c "+" || Ascii.eqb c "-".

(** Splits at the first [+] or [-]: the text before it, and the sign with
    the text after it. *)
Fixpoint split_sign (s : string) : string * option (ascii * string) :=
  match s with
  | EmptyString => (EmptyString, None)
  | String c s' =>
      if is_sign c then (EmptyString, Some (c, s'))
      else let '(a, b) := split_sign s' in (String c a, b)
  end.

(** The offset [HH:MM], [HH:MM:SS] or [HH:MM:SS.ffffff] in microseconds. *)
Definition parse_offset (sign : ascii) (s : string) : option Z :=
  match String.length s with
  | 5%nat | 8%nat | 15%nat =>
      '(h, m, sec, f) ← parse_hh_mm_ss_ff s;
      let us := ((h * 3600 + m * 60 + sec) * 1000000 + f) in
      Some (if Ascii.eqb sign "-" then - us else us)
  | _ => None
  end.

(** [HH[:MM[:SS[.fff[fff]]]][+HH:MM[:SS[.ffffff]]]]. *)
Definition parse_isoformat_time (s : string) : option (Z * Z * Z * Z * option Z) :=
  let '(tstr, tz) := split_sign s in
  '(h, m, sec, f) ← parse_hh_mm_ss_ff tstr;
  match tz with
  | None => Some (h, m, sec, f, None)
  | Some (sign, tzstr) => off ← parse_offset sign tzstr; Some (h, m, sec, f, Some off)
  end.

Definition is_leap (y : Z) : bool :=
  (y mod 4 =? 0) && (negb (y mod 100 =? 0) || (y mod 400 =? 0)).

Definition days_in_month (y m : Z) : Z :=
  if m =? 2 then (if is_leap y then 29 else 28)
  else if (m =? 4) || (m =? 6) || (m =? 9) || (m =? 11) then 30
  else 31.

Definition day_us : Z := 86400 * 1000000.

(** The range checks of the [datetime] and [timezone] constructors. *)
Definition valid (dt : t) : bool :=
  (1 <=? year dt) && (year dt <=? 9999) &&
  (1 <=? month dt) && (month dt <=? 12) &&
  (1 <=? day dt) && (day dt <=? days_in_month (year dt) (month dt)) &&
  (0 <=? hour dt) && (hour dt <=? 23) &&
  (0 <=? minute dt) && (minute dt <=? 59) &&
  (0 <=? second dt) && (second dt <=? 59) &&
  (0 <=? microsecond dt) && (microsecond dt <=? 999999) &&
  match utcoffset dt with
  | None => true
  | Some off => (- day_us <? off) && (off <? day_us)
  end.

(** The grammar that the documentation of [datetime.fromisoformat] has
    given since the function exists,
    [YYYY-MM-DD[*HH[:MM[:SS[.fff[fff]]]][+HH:MM[:SS[.ffffff]]]]] with [*]
    any one character (one byte here, texts being sequences of bytes).
    Every interpreter that has the function reads a text of this grammar
    in this way.  The later interpreters read further texts as well (the
    basic format, week dates, any number of fraction digits, offsets
    without a colon): [None] here does not mean that [fromisoformat]
    raises, see [Runtime]. *)
Definition parse_documented (s : string) : option t :=
  '(y, m, d, rest) ← parse_isoformat_date s;
  dt ← match rest with
       | EmptyString => Some (mk y m d 0 0 0 0 None)
       | String _ tstr =>
           '(h, mi, sec, f, tz) ← parse_isoformat_time tstr;
           Some (mk y m d h mi sec f tz)
       end;
  if valid dt then Some dt else None.

(** Whether [s] begins with the four digits of a year. *)
Definition year_first (s : string) : bool :=
  match parse_digits 4 0 s with
  | Some _ => true
  | None => false
  end.

Definition digit_char (n : Z) : ascii := ascii_of_nat (Z.to_nat (48 + n)).

(** Two and four decimal digits, zero-padded. *)
Definition pad2 (n : Z) : string :=
  String (digit_char (n / 10)) (String (digit_char (n mod 10)) EmptyString).

Definition pad4 (n : Z) : string := pad2 (n / 100) +:+ pad2 (n mod 100).

(** [%B] in the C locale. *)
Definition month_name (m : Z) : string :=
  match m with
  | 1 => "January" | 2 => "February" | 3 => "March" | 4 => "April"
  | 5 => "May" | 6 => "June" | 7 => "July" | 8 => "August"
  | 9 => "September" | 10 => "October" | 11 => "November"
  | _ => "December"
  end.

(** [%I]: the hour on the 12-hour clock. *)
Definition hour12 (h : Z) : Z := if h mod 12 =? 0 then 12 else h mod 12.

(** [%p] in the C locale. *)
Definition am_pm (h : Z) : string := if h <? 12 then "AM" else "PM".

End Datetime.

(** ** What the interpreter and the C library decide

    Three things are not fixed by the program: [repr] of a value that is
    not None, a bool, an int or a str (floats, containers, dates, object
    ids); what [%Y] prints for a year below 1000, which the C library
    pads on some platforms and not on others; and which texts outside the
    documented grammar [datetime.fromisoformat] reads, and how
    ([fromisoformat_further], [None] where it raises [ValueError]): none
    up to Python 3.10, most of ISO 8601 from Python 3.11 on.  Of these
    further texts two facts hold on every interpreter: the text begins
    with the four digits of the year, and the [datetime] read from it has
    its fields in range. *)
Class Runtime : Type := {
  py_repr : pyval -> string;
  strftime_Y_small : Z -> string;
  fromisoformat_further : string -> option Datetime.t;
  further_year_first (s : string) (dt : Datetime.t) :
    fromisoformat_further s = Some dt -> Datetime.year_first s = true;
  further_valid (s : string) (dt : Datetime.t) :
    fromisoformat_further s = Some dt -> Datetime.valid dt = true
}.

Section App.

Context {rt : Runtime}.

(** [str(v)], which is also what an f-string field [{v}] prints. *)
Definition py_str (v : pyval) : string :=
  match v with
  | VStr s => s
  | VNone => "None"
  | VBool true => "True"
  | VBool false => "False"
  | VInt z => NilZero.string_of_int (Z.to_int z)
  | _ => py_repr v
  end.

(** [%Y]. *)
Definition strftime_Y (y : Z) : string :=
  if y <? 1000 then strftime_Y_small y else Datetime.pad4 y.

(** [dt.strftime('%d %B %Y - %I:%M %p UTC')]. *)
Definition strftime (dt : Datetime.t) : string :=
  Datetime.pad2 (Datetime.day dt) +:+ " " +:+
  Datetime.month_name (Datetime.month dt) +:+ " " +:+
  strftime_Y (Datetime.year dt) +:+ " - " +:+
  Datetime.pad2 (Datetime.hour12 (Datetime.hour dt)) +:+ ":" +:+
  Datetime.pad2 (Datetime.minute dt) +:+ " " +:+
  Datetime.am_pm (Datetime.hour dt) +:+ " UTC".

(** [datetime.fromisoformat] on a text: a text of the documented grammar
    is read as documented, any other text as the interpreter at hand
    reads it; [None] stands for [ValueError]. *)
Definition fromisoformat (s : string) : option Datetime.t :=
  match Datetime.parse_documented s with
  | Some dt => Some dt
  | None => fromisoformat_further s
  end.

(** [datetime.fromisoformat(v)]. *)
Definition py_fromisoformat (v : pyval) : result Datetime.t :=
  match v with
  | VStr s =>
      match fromisoformat s with
      | Some dt => Ok dt
      | None => Raise ValueError
      end
  | _ => Raise TypeError
  end.

(** [format_timestamp]: the bare [except] turns every exception of the
    [try] block into the argument itself. *)
Definition format_timestamp (timestamp_str : pyval) : pyval :=
  match
    s ← py_replace timestamp_str "Z" "+00:00";
    dt ← py_fromisoformat s;
    mret (VStr (strftime dt))
  with
  | Ok r => r
  | Raise _ => timestamp_str
  end.

(** [v.get(k1, {}).get(k2, dflt)]. *)
Definition py_get2 (v : pyval) (k1 k2 : string) (dflt : pyval) : result pyval :=
  inner ← py_get v k1 (VDict ∅);
  py_get inner k2 dflt.

(** [payload.get('ref', '').replace('refs/heads/', '')]. *)
Definition push_branch (payload : pyval) : result pyval :=
  ref ← py_get payload "ref" (VStr "");
  py_replace ref "refs/heads/" "".

(** [process_push_event]: the entries of the dict display are evaluated
    in order, the f-string of [message] evaluating its three fields anew. *)
Definition process_push_event (payload : pyval) : result pydict :=
  id ← py_get payload "after" (VStr "");
  author ← py_get2 payload "pusher" "name" (VStr "Unknown");
  to_branch ← push_branch payload;
  timestamp ← format_timestamp <$> py_get2 payload "head_commit" "timestamp" (VStr "");
  m_author ← py_get2 payload "pusher" "name" (VStr "Unknown");
  m_branch ← push_branch payload;
  m_time ← format_timestamp <$> py_get2 payload "head_commit" "timestamp" (VStr "");
  mret (list_to_map
    [ ("id", id);
      ("author", author);
      ("to_branch", to_branch);
      ("timestamp", timestamp);
      ("action", VStr "push");
      ("message", VStr (py_str m_author +:+ " pushed to " +:+ py_str m_branch
                        +:+ " on " +:+ py_str m_time)) ]).

(** [process_pull_request_event]. *)
Definition process_pull_request_event (payload : pyval) : result pydict :=
  pr ← py_get payload "pull_request" (VDict ∅);
  id ← py_get pr "id" (VStr "");
  author ← py_get2 pr "user" "login" (VStr "Unknown");
  from_branch ← py_get2 pr "head" "ref" (VStr "");
  to_branch ← py_get2 pr "base" "ref" (VStr "");
  timestamp ← format_timestamp <$> py_get pr "created_at" (VStr "");
  m_author ← py_get2 pr "user" "login" (VStr "Unknown");
  m_from ← py_get2 pr "head" "ref" (VStr "");
  m_to ← py_get2 pr "base" "ref" (VStr "");
  m_time ← format_timestamp <$> py_get pr "created_at" (VStr "");
  mret (list_to_map
    [ ("id", VStr (py_str id));
      ("author", author);
      ("from_branch", from_branch);
      ("to_branch", to_branch);
      ("timestamp", timestamp);
      ("action", VStr "pull_request");
      ("message", VStr (py_str m_author +:+ " submitted a pull request from "
                        +:+ py_str m_from +:+ " to " +:+ py_str m_to
                        +:+ " on " +:+ py_str m_time)) ]).

(** [process_merge_event]. *)
Definition process_merge_event (payload : pyval) : result pydict :=
  pr ← py_get payload "pull_request" (VDict ∅);
  id ← py_get pr "id" (VStr "");
  author ← py_get2 pr "merged_by" "login" (VStr "Unknown");
  from_branch ← py_get2 pr "head" "ref" (VStr "");
  to_branch ← py_get2 pr "base" "ref" (VStr "");
  timestamp ← format_timestamp <$> py_get pr "merged_at" (VStr "");
  m_author ← py_get2 pr "merged_by" "login" (VStr "Unknown");
  m_from ← py_get2 pr "head" "ref" (VStr "");
  m_to ← py_get2 pr "base" "ref" (VStr "");
  m_time ← format_timestamp <$> py_get pr "merged_at" (VStr "");
  mret (list_to_map
    [ ("id", VStr (py_str id));
      ("author", author);
      ("from_branch", from_branch);
      ("to_branch", to_branch);
      ("timestamp", timestamp);
      ("action", VStr "merge");
      ("message", VStr (py_str m_author +:+ " merged branch "
                        +:+ py_str m_from +:+ " to " +:+ py_str m_to
                        +:+ " on " +:+ py_str m_time)) ]).

(** ** The collection *)

(** The [events] collection: its documents in insertion order, and the
    next [ObjectId] the driver hands out.  Connection faults, which both
    handlers answer with status 500, are outside the model. *)
Record collection : Type := mk_collection {
  docs : list pydict;
  next_oid : N
}.

(** [collection.insert_one(doc)]: a document without [_id] gets one. *)
Definition insert_one (doc : pydict) (coll : collection) : collection :=
  let doc' :=
    match doc !! "_id" with
    | Some _ => doc
    | None => <["_id" := VObjectId (next_oid coll)]> doc
    end in
  {| docs := docs coll ++ [doc']; next_oid := N.succ (next_oid coll) |}.

(** ** The [/webhook] handler *)

(** What the handler answers: 200 [success], 200 [ignored], 500 [error]. *)
Inductive outcome : Type :=
| Processed
| Ignored
| Failed (e : exn).

(** [headers.get('X-GitHub-Event') == s]. *)
Definition header_is (event_type : option string) (s : string) : bool :=
  match event_type with
  | Some t => String.eqb t s
  | None => false
  end.

(** Lines 69 to 78: which event, if any, the request yields. *)
Definition select_event (event_type : option string) (payload : pyval)
  : result (option pydict) :=
  if header_is event_type "push" then
    Some <$> process_push_event payload
  else if header_is event_type "pull_request" then
    action ← py_get payload "action" VNone;
    if py_eq_str action "opened" then
      Some <$> process_pull_request_event payload
    else if py_eq_str action "closed" then
      merged ← py_get2 payload "pull_request" "merged" VNone;
      if truthy merged then Some <$> process_merge_event payload
      else mret None
    else mret None
  else mret None.

(** Lines 80 to 90: stamp and store the event, or answer [ignored]. *)
Definition store_event (event_data : option pydict) (payload : pyval)
    (now : Z) (coll : collection) : outcome * collection :=
  match event_data with
  | Some d =>
      if truthy (VDict d) then
        let d1 := <["created_at" := VDatetime now]> d in
        let d2 := <["raw_payload" := payload]> d1 in
        (Processed, insert_one d2 coll)
      else (Ignored, coll)
  | None => (Ignored, coll)
  end.

(** [webhook]: [event_type] is the [X-GitHub-Event] header, [payload] the
    parsed body, [now] what [datetime.utcnow()] returns. *)
Definition webhook (event_type : option string) (payload : pyval)
    (now : Z) (coll : collection) : outcome * collection :=
  match select_event event_type payload with
  | Ok event_data => store_event event_data payload now coll
  | Raise e => (Failed e, coll)
  end.

(** ** The [/api/events] handler *)

(** The sort key: the date under [created_at].  A document without a date
    there sorts below every date, as a missing field does. *)
Definition created_at (d : pydict) : option Z :=
  match d !! "created_at" with
  | Some (VDatetime t) => Some t
  | _ => None
  end.

Definition key_le (a b : option Z) : bool :=
  match a, b with
  | None, _ => true
  | Some _, None => false
  | Some x, Some y => x <=? y
  end.

(** [sort('created_at', -1)], as an insertion sort; the server leaves the
    order of equal keys open, here they stay in insertion order. *)
Fixpoint insert_desc (x : pydict) (l : list pydict) : list pydict :=
  match l with
  | [] => [x]
  | y :: l' =>
      if key_le (created_at y) (created_at x) then x :: y :: l'
      else y :: insert_desc x l'
  end.

Fixpoint sort_desc (l : list pydict) : list pydict :=
  match l with
  | [] => []
  | x :: l' => insert_desc x (sort_desc l')
  end.

(** The projection [{'_id': 0, 'raw_payload': 0}]. *)
Definition project (d : pydict) : pydict := delete "_id" (delete "raw_payload" d).

(** [get_events]: the list handed to [jsonify]. *)
Definition get_events (coll : collection) : list pydict :=
  project <$> take 20 (sort_desc (docs coll)).

End App.

(** * Definitions for the statements *)

(** ** The timestamp and branch rules in the words of the specification *)

(** [s] without its last character when that character is [Z]. *)
Fixpoint strip_trailing_Z (s : string) : option string :=
  match s with
  | EmptyString => None
  | String c EmptyString => if Ascii.eqb c "Z" then Some EmptyString else None
  | String c s' => String c <$> strip_trailing_Z s'
  end.

(** Whether [Z] occurs in [s] before its last character. *)
Fixpoint inner_Z (s : string) : bool :=
  match s with
  | EmptyString => false
  | String c EmptyString => false
  | String c s' => Ascii.eqb c "Z" || inner_Z s'
  end.

(** The timestamp rule in the specification's words: a final [Z], and only
    that one, stands for the offset [+00:00]. *)
Definition format_timestamp_suffix_rule `{rt : Runtime} (s : string) : string :=
  let iso :=
    match strip_trailing_Z s with
    | Some body => body +:+ "+00:00"
    | None => s
    end in
  match fromisoformat iso with
  | Some dt => strftime dt
  | None => s
  end.

Fixpoint string_drop (n : nat) (s : string) : string :=
  match n, s with
  | S n', String _ s' => string_drop n' s'
  | _, _ => s
  end.

(** The branch rule in the specification's words: a leading [p] is
    stripped when present, and the text is unchanged otherwise. *)
Definition strip_prefix (p s : string) : string :=
  if String.prefix p s then string_drop (String.length p) s else s.

(** Whether [old] occurs in [s]. *)
Fixpoint occurs (old s : string) : bool :=
  String.prefix old s ||
  match s with
  | EmptyString => false
  | String _ s' => occurs old s'
  end.

(** The text GitHub sends for an instant: [YYYY-MM-DDTHH:MM:SSZ]. *)
Definition isoformat_Z (y mo d h mi s : Z) : string :=
  Datetime.pad4 y +:+ "-" +:+ Datetime.pad2 mo +:+ "-" +:+ Datetime.pad2 d +:+ "T" +:+
  Datetime.pad2 h +:+ ":" +:+ Datetime.pad2 mi +:+ ":" +:+ Datetime.pad2 s +:+ "Z".

(** Whether the character [x] is absent from [s]. *)
Fixpoint lacks (x : ascii) (s : string) : bool :=
  match s with
  | EmptyString => true
  | String c s' => negb (Ascii.eqb c x) && lacks x s'
  end.

(** ** Well-shaped payloads and the records they yield *)

(** The three kinds of event, one normaliser each. *)
Inductive kind : Type :=
| KPush
| KPullRequest
| KMerge.

Definition normalize `{rt : Runtime} (k : kind) (payload : pyval) : result pydict :=
  match k with
  | KPush => process_push_event payload
  | KPullRequest => process_pull_request_event payload
  | KMerge => process_merge_event payload
  end.

Definition action_name (k : kind) : string :=
  match k with
  | KPush => "push"
  | KPullRequest => "pull_request"
  | KMerge => "merge"
  end.

(** [d.get(key, dflt)] on a dict. *)
Definition get_or (d : pydict) (key : string) (dflt : pyval) : pyval :=
  default dflt (d !! key).

(** The dict under [key], the empty dict when the key is absent. *)
Definition sub (d : pydict) (key : string) : pydict :=
  match d !! key with
  | Some (VDict x) => x
  | _ => ∅
  end.

Definition dict_or_absent (d : pydict) (key : string) : bool :=
  match d !! key with
  | None | Some (VDict _) => true
  | Some _ => false
  end.

Definition str_or_absent (d : pydict) (key : string) : bool :=
  match d !! key with
  | None | Some (VStr _) => true
  | Some _ => false
  end.

(** The text under [key], the empty text when the key is absent. *)
Definition text_of (d : pydict) (key : string) : string :=
  match d !! key with
  | Some (VStr r) => r
  | _ => ""
  end.

(** The payloads a normaliser does not raise on: the payload is an object
    and every value the normaliser calls a method on, when present, has
    that method. *)
Definition shaped (k : kind) (payload : pyval) : bool :=
  match payload with
  | VDict d =>
      match k with
      | KPush =>
          dict_or_absent d "pusher" && str_or_absent d "ref" &&
          dict_or_absent d "head_commit"
      | KPullRequest =>
          dict_or_absent d "pull_request" &&
          dict_or_absent (sub d "pull_request") "user" &&
          dict_or_absent (sub d "pull_request") "head" &&
          dict_or_absent (sub d "pull_request") "base"
      | KMerge =>
          dict_or_absent d "pull_request" &&
          dict_or_absent (sub d "pull_request") "merged_by" &&
          dict_or_absent (sub d "pull_request") "head" &&
          dict_or_absent (sub d "pull_request") "base"
      end
  | _ => false
  end.

(** The record of a well-shaped payload, every missing field replaced by
    its default. *)
Definition record_of `{rt : Runtime} (k : kind) (d : pydict) : pydict :=
  match k with
  | KPush =>
      let author := get_or (sub d "pusher") "name" (VStr "Unknown") in
      let to_branch := VStr (replace "refs/heads/" "" (text_of d "ref")) in
      let timestamp :=
        format_timestamp (get_or (sub d "head_commit") "timestamp" (VStr "")) in
      list_to_map
        [ ("id", get_or d "after" (VStr ""));
          ("author", author);
          ("to_branch", to_branch);
          ("timestamp", timestamp);
          ("action", VStr "push");
          ("message", VStr (py_str author +:+ " pushed to " +:+ py_str to_branch
                            +:+ " on " +:+ py_str timestamp)) ]
  | KPullRequest =>
      let pr := sub d "pull_request" in
      let author := get_or (sub pr "user") "login" (VStr "Unknown") in
      let from_branch := get_or (sub pr "head") "ref" (VStr "") in
      let to_branch := get_or (sub pr "base") "ref" (VStr "") in
      let timestamp := format_timestamp (get_or pr "created_at" (VStr "")) in
      list_to_map
        [ ("id", VStr (py_str (get_or pr "id" (VStr ""))));
          ("author", author);
          ("from_branch", from_branch);
          ("to_branch", to_branch);
          ("timestamp", timestamp);
          ("action", VStr "pull_request");
          ("message", VStr (py_str author +:+ " submitted a pull request from "
                            +:+ py_str from_branch +:+ " to " +:+ py_str to_branch
                            +:+ " on " +:+ py_str timestamp)) ]
  | KMerge =>
      let pr := sub d "pull_request" in
      let author := get_or (sub pr "merged_by") "login" (VStr "Unknown") in
      let from_branch := get_or (sub pr "head") "ref" (VStr "") in
      let to_branch := get_or (sub pr "base") "ref" (VStr "") in
      let timestamp := format_timestamp (get_or pr "merged_at" (VStr "")) in
      list_to_map
        [ ("id", VStr (py_str (get_or pr "id" (VStr ""))));
          ("author", author);
          ("from_branch", from_branch);
          ("to_branch", to_branch);
          ("timestamp", timestamp);
          ("action", VStr "merge");
          ("message", VStr (py_str author +:+ " merged branch "
                            +:+ py_str from_branch +:+ " to " +:+ py_str to_branch
                            +:+ " on " +:+ py_str timestamp)) ]
  end.

(** A field of a record, [None] when the key is missing. *)
Definition field (rec : pydict) (name : string) : pyval :=
  default VNone (rec !! name).

(** The message template of each kind, filled from a record's own fields. *)
Definition message_template `{rt : Runtime} (k : kind) (rec : pydict) : string :=
  match k with
  | KPush =>
      py_str (field rec "author") +:+ " pushed to " +:+
      py_str (field rec "to_branch") +:+ " on " +:+ py_str (field rec "timestamp")
  | KPullRequest =>
      py_str (field rec "author") +:+ " submitted a pull request from " +:+
      py_str (field rec "from_branch") +:+ " to " +:+
      py_str (field rec "to_branch") +:+ " on " +:+ py_str (field rec "timestamp")
  | KMerge =>
      py_str (field rec "author") +:+ " merged branch " +:+
      py_str (field rec "from_branch") +:+ " to " +:+
      py_str (field rec "to_branch") +:+ " on " +:+ py_str (field rec "timestamp")
  end.

(** ** The dispatch table *)

Inductive rule : Type :=
| RulePush
| RuleOpened
| RuleMerge
| RuleIgnore.

(** [payload.action == s]. *)
Definition action_is (payload : pyval) (s : string) : bool :=
  match payload with
  | VDict d => py_eq_str (get_or d "action" VNone) s
  | _ => false
  end.

(** [payload.pull_request.merged], [None] when it is absent. *)
Definition merged_value (payload : pyval) : pyval :=
  match payload with
  | VDict d => get_or (sub d "pull_request") "merged" VNone
  | _ => VNone
  end.

(** The table read with [merged] tested for its truth value. *)
Definition dispatch_rule (event_type : option string) (payload : pyval) : rule :=
  if header_is event_type "push" then RulePush
  else if header_is event_type "pull_request" && action_is payload "opened"
  then RuleOpened
  else if header_is event_type "pull_request" && action_is payload "closed"
          && truthy (merged_value payload)
  then RuleMerge
  else RuleIgnore.

(** The table in the specification's words: [merged == true]. *)
Definition dispatch_rule_claimed (event_type : option string) (payload : pyval)
  : rule :=
  if header_is event_type "push" then RulePush
  else if header_is event_type "pull_request" && action_is payload "opened"
  then RuleOpened
  else if header_is event_type "pull_request" && action_is payload "closed"
          && match merged_value payload with VBool true => true | _ => false end
  then RuleMerge
  else RuleIgnore.

Definition rule_kind (r : rule) : option kind :=
  match r with
  | RulePush => Some KPush
  | RuleOpened => Some KPullRequest
  | RuleMerge => Some KMerge
  | RuleIgnore => None
  end.

(** The requests the dispatch itself does not raise on: under the header
    [pull_request] the payload is an object, and when its action is
    [closed] its [pull_request], if present, is an object. *)
Definition routable (event_type : option string) (payload : pyval) : bool :=
  if header_is event_type "push" then true
  else if header_is event_type "pull_request" then
    match payload with
    | VDict d =>
        if action_is payload "opened" then true
        else if action_is payload "closed" then dict_or_absent d "pull_request"
        else true
    | _ => false
    end
  else true.

(** The document the handler stores for a record. *)
Definition stamped (rec : pydict) (payload : pyval) (now : Z) : pydict :=
  <["raw_payload" := payload]> (<["created_at" := VDatetime now]> rec).

(** ** Persisted records *)

(** The [action] of a stored document is one of the three names, and
    [from_branch] is a key of it exactly when the action is not [push]. *)
Definition persisted_ok (doc : pydict) : bool :=
  match doc !! "action" with
  | Some (VStr a) =>
      if String.eqb a "push" then bool_decide (doc !! "from_branch" = None)
      else if String.eqb a "pull_request" || String.eqb a "merge"
      then bool_decide (is_Some (doc !! "from_branch"))
      else false
  | _ => false
  end.

(** Whether [created_at] holds a date. *)
Definition dated (doc : pydict) : bool :=
  match created_at doc with
  | Some _ => true
  | None => false
  end.

(** Dates strictly increasing along the list. *)
Fixpoint increasing (l : list pydict) : bool :=
  match l with
  | [] => true
  | x :: l' =>
      dated x &&
      match l' with
      | [] => true
      | y :: _ =>
          match created_at x, created_at y with
          | Some a, Some b => a <? b
          | _, _ => false
          end
      end && increasing l'
  end.

(** Dates never increasing along the list: newest first. *)
Fixpoint newest_first (l : list pydict) : bool :=
  match l with
  | [] => true
  | x :: l' =>
      match l' with
      | [] => true
      | y :: _ => key_le (created_at y) (created_at x)
      end && newest_first l'
  end.

(** ** A runtime for closed examples *)

(** Years below 1000 print without padding, as glibc prints them, and
    [fromisoformat] reads the documented grammar only, as up to Python
    3.10.  No example formats a float, a container, a date or an object
    id, whose [repr] is left empty here, and no example has a timestamp
    that a later interpreter reads in another way. *)
Definition glibc_runtime : Runtime :=
  {| py_repr := fun _ => "";
     strftime_Y_small := fun y => NilZero.string_of_int (Z.to_int y);
     fromisoformat_further := fun _ => None;
     further_year_first := ltac:(intros; discriminate);
     further_valid := ltac:(intros; discriminate) |}.

(** The handler run over a sequence of requests, each with its header,
    its payload and the clock reading at its arrival. *)
Fixpoint deliver `{rt : Runtime} (requests : list (option string * pyval * Z))
    (coll : collection) : collection :=
  match requests with
  | [] => coll
  | (event_type, payload, now) :: rest =>
      deliver rest (webhook event_type payload now coll).2
  end.

Definition empty_collection : collection := mk_collection [] 0.

(** ** Sample payloads *)

(** A push without [pusher]. *)
Definition push_fields : pydict :=
  list_to_map
    [ ("ref", VStr "refs/heads/main");
      ("after", VStr "9fceb02d0ae598e95dc970b74767f19372d61af8");
      ("head_commit", VDict {[ "timestamp" := VStr "2024-03-15T14:30:00Z" ]}) ].

Definition push_sample : pyval := VDict push_fields.

(** The push GitHub sends when a branch is deleted: [head_commit] is
    [null]. *)
Definition branch_deleted_sample : pyval :=
  VDict (list_to_map
    [ ("ref", VStr "refs/heads/old");
      ("after", VStr "0000000000000000000000000000000000000000");
      ("pusher", VDict {[ "name" := VStr "bob" ]});
      ("head_commit", VNone) ]).

(** A pull request with the fields of both the opened and the merged
    event, with or without its [id]. *)
Definition pull_request_fields (with_id : bool) : pydict :=
  let fields : pydict :=
    list_to_map
      [ ("user", VDict {[ "login" := VStr "alice" ]});
        ("merged_by", VDict {[ "login" := VStr "bob" ]});
        ("head", VDict {[ "ref" := VStr "feature" ]});
        ("base", VDict {[ "ref" := VStr "main" ]});
        ("created_at", VStr "2024-03-15T14:30:00Z");
        ("merged_at", VStr "2024-03-16T09:05:00Z");
        ("merged", VBool true) ] in
  if with_id then <["id" := VInt 1296269]> fields else fields.

Definition opened_fields (with_id : bool) : pydict :=
  list_to_map
    [ ("action", VStr "opened");
      ("pull_request", VDict (pull_request_fields with_id)) ].

Definition opened_sample : pyval := VDict (opened_fields true).

Definition closed_fields (merged : pyval) : pydict :=
  list_to_map
    [ ("action", VStr "closed");
      ("pull_request", VDict (<["merged" := merged]> (pull_request_fields true))) ].

Definition closed_sample (merged : pyval) : pyval := VDict (closed_fields merged).

(** A closed pull request whose [pull_request] is [null]. *)
Definition closed_null_sample : pyval :=
  VDict (list_to_map [ ("action", VStr "closed"); ("pull_request", VNone) ]).

(** Twenty-five pushes, delivered at the clock readings 1 to 25. *)
Definition pushes_25 : list (option string * pyval * Z) :=
  (fun n => (Some "push", push_sample, Z.of_nat n)) <$> seq 1 25.

(** Where each kind takes its identifier from. *)
Definition id_source (k : kind) (d : pydict) : option pyval :=
  match k with
  | KPush => d !! "after"
  | KPullRequest | KMerge => sub d "pull_request" !! "id"
  end.

(** [x] is at least as recent as [y]. *)
Definition newer_eq (x y : pydict) : Prop :=
  key_le (created_at y) (created_at x) = true.

(** ** Definitions for the further properties *)

(** The text of an instant with a numeric offset:
    [YYYY-MM-DDTHH:MM:SS+HH:MM], the sign being [+] or [-]. *)
Definition isoformat_offset (y mo d h mi s : Z) (sign : ascii) (oh om : Z)
  : string :=
  Datetime.pad4 y +:+ "-" +:+ Datetime.pad2 mo +:+ "-" +:+ Datetime.pad2 d +:+ "T" +:+
  Datetime.pad2 h +:+ ":" +:+ Datetime.pad2 mi +:+ ":" +:+ Datetime.pad2 s +:+
  String sign (Datetime.pad2 oh +:+ ":" +:+ Datetime.pad2 om).

(** ** Where the fields of a record come from *)

(** Where each kind takes the other fields from. *)
Definition author_source (k : kind) (d : pydict) : option pyval :=
  match k with
  | KPush => sub d "pusher" !! "name"
  | KPullRequest => sub (sub d "pull_request") "user" !! "login"
  | KMerge => sub (sub d "pull_request") "merged_by" !! "login"
  end.

Definition timestamp_source (k : kind) (d : pydict) : option pyval :=
  match k with
  | KPush => sub d "head_commit" !! "timestamp"
  | KPullRequest => sub d "pull_request" !! "created_at"
  | KMerge => sub d "pull_request" !! "merged_at"
  end.

Definition to_branch_source (k : kind) (d : pydict) : option pyval :=
  match k with
  | KPush => d !! "ref"
  | KPullRequest | KMerge => sub (sub d "pull_request") "base" !! "ref"
  end.

Definition from_branch_source (d : pydict) : option pyval :=
  sub (sub d "pull_request") "head" !! "ref".

(** The keys of a record of each kind. *)
Definition record_keys (k : kind) : gset string :=
  match k with
  | KPush =>
      {[ "id"; "author"; "to_branch"; "timestamp"; "action"; "message" ]}
  | KPullRequest | KMerge =>
      {[ "id"; "author"; "from_branch"; "to_branch"; "timestamp"; "action";
         "message" ]}
  end.

Definition is_text (v : option pyval) : bool :=
  match v with
  | Some (VStr _) => true
  | _ => false
  end.

(** ** The collection over a run of requests *)

(** Whether the date of [doc], if it has one, is before [now]. *)
Definition older_than (now : Z) (doc : pydict) : bool :=
  match created_at doc with
  | Some t => t <? now
  | None => true
  end.

(** No two documents of [l] have the same date, a missing date counting
    as one: the newest-first order of [l] is then unique, and what the
    server does with equal keys plays no part. *)
Definition distinct_dates (l : list pydict) : Prop :=
  NoDup (created_at <$> l).

(** Whether [doc] carries a date before [bound]. *)
Definition dated_before (bound : Z) (doc : pydict) : bool :=
  match created_at doc with
  | Some t => t <? bound
  | None => false
  end.

(** Clock readings that increase strictly along the requests, the first
    one being [bound] at least. *)
Fixpoint clock_increasing (bound : Z)
    (requests : list (option string * pyval * Z)) : bool :=
  match requests with
  | [] => true
  | (_, _, now) :: rest => (bound <=? now) && clock_increasing (now + 1) rest
  end.

(** ** The dashboard script *)

(** What a property read in the script yields: a text, or a member that
    every object inherits from [Object.prototype]. *)
Inductive js_value : Type :=
| JsText (s : string)
| JsInherited (name : string).

(** The members of [Object.prototype]. *)
Definition object_prototype_names : list string :=
  [ "constructor"; "__defineGetter__"; "__defineSetter__"; "hasOwnProperty";
    "__lookupGetter__"; "__lookupSetter__"; "isPrototypeOf";
    "propertyIsEnumerable"; "toString"; "valueOf"; "__proto__";
    "toLocaleString" ].

(** [getEventIcon(action)] for a text [action]: [icons[action] || '?'],
    where [icons] is an object literal with the three own properties; a
    name it inherits is found before the default is reached. *)
Definition getEventIcon (action : string) : js_value :=
  if String.eqb action "push" then JsText "P"
  else if String.eqb action "pull_request" then JsText "PR"
  else if String.eqb action "merge" then JsText "M"
  else if existsb (String.eqb action) object_prototype_names
  then JsInherited action
  else JsText "?".

Definition icon_of (k : kind) : string :=
  match k with
  | KPush => "P"
  | KPullRequest => "PR"
  | KMerge => "M"
  end.

(** * Properties *)

(** ** Facts about [replace] *)

Lemma prefix_app (a s : string) : String.prefix a (a +:+ s) = true.
Proof.
  induction a as [|c a IH]; simpl.
  - by destruct s.
  - destruct (ascii_dec c c) as [_|Hne]; [exact IH | by destruct Hne].
Qed.

Lemma replace_cons (old new : string) (c : ascii) (s : string) :
  replace old new (String c s) =
  if String.prefix old (String c s)
  then new +:+ replace_from (Nat.pred (String.length old)) old new s
  else String c (replace old new s).
Proof. reflexivity. Qed.

Lemma replace_from_skip (old new a s : string) :
  replace_from (String.length a) old new (a +:+ s) = replace old new s.
Proof.
  induction a as [|c a IH]; simpl; [|exact IH].
  destruct s; reflexivity.
Qed.

Lemma replace_absent (old new s : string) :
  occurs old s = false -> replace old new s = s.
Proof.
  unfold replace. induction s as [|c s IH]; intros Hocc; [reflexivity|].
  cbn [occurs] in Hocc. apply orb_false_iff in Hocc as [Hp Hs].
  cbn [replace_from]. rewrite Hp. f_equal. by apply IH.
Qed.

(** One leading occurrence and no other: [replace] strips exactly it. *)
Lemma replace_leading (old new s : string) :
  old <> EmptyString -> occurs old s = false ->
  replace old new (old +:+ s) = new +:+ s.
Proof.
  intros Hne Hocc. destruct old as [|c old]; [done|].
  change (String c old +:+ s) with (String c (old +:+ s)).
  rewrite replace_cons.
  change (String c (old +:+ s)) with (String c old +:+ s).
  rewrite prefix_app. cbn [String.length Nat.pred].
  rewrite replace_from_skip. f_equal. by apply replace_absent.
Qed.

Lemma strip_prefix_leading (old s : string) : strip_prefix old (old +:+ s) = s.
Proof.
  unfold strip_prefix. rewrite prefix_app.
  induction old as [|c old IH]; simpl; [by destruct s | exact IH].
Qed.

(** ** Facts about digits and the parser *)

Import Datetime.

Lemma digit_char_val (k : Z) : 0 <= k <= 9 -> digit_val (digit_char k) = Some k.
Proof.
  intros Hk.
  assert (k = 0 \/ k = 1 \/ k = 2 \/ k = 3 \/ k = 4 \/
          k = 5 \/ k = 6 \/ k = 7 \/ k = 8 \/ k = 9) as Hcases by lia.
  repeat (destruct Hcases as [->|Hcases]; [reflexivity|]). by subst.
Qed.

Lemma digit_char_neq (k : Z) (x : ascii) :
  0 <= k <= 9 -> digit_val x = None -> Ascii.eqb (digit_char k) x = false.
Proof.
  intros Hk Hx. destruct (Ascii.eqb_spec (digit_char k) x) as [<-|]; [|done].
  rewrite digit_char_val in Hx by done. discriminate.
Qed.

Lemma lacks_app (x : ascii) (a b : string) :
  lacks x (a +:+ b) = lacks x a && lacks x b.
Proof.
  induction a as [|c a IH]; simpl; [done|]. by rewrite IH, andb_assoc.
Qed.

Ltac div_mod_bounds := try done; Z.to_euclidean_division_equations; lia.

Lemma lacks_pad2 (x : ascii) (n : Z) :
  0 <= n <= 99 -> digit_val x = None -> lacks x (pad2 n) = true.
Proof.
  intros Hn Hx. unfold pad2. cbn [lacks].
  by rewrite !digit_char_neq by div_mod_bounds.
Qed.

Lemma lacks_pad4 (x : ascii) (n : Z) :
  0 <= n <= 9999 -> digit_val x = None -> lacks x (pad4 n) = true.
Proof.
  intros Hn Hx. unfold pad4. rewrite lacks_app.
  by rewrite !lacks_pad2 by div_mod_bounds.
Qed.

Lemma parse_pad2_acc (n acc : Z) (rest : string) :
  0 <= n <= 99 ->
  parse_digits 2 acc (pad2 n +:+ rest) = Some (100 * acc + n, rest).
Proof.
  intros Hn. unfold pad2. simpl.
  rewrite !digit_char_val by div_mod_bounds.
  do 2 f_equal. div_mod_bounds.
Qed.

Lemma parse_pad2 (n : Z) (rest : string) :
  0 <= n <= 99 -> parse_digits 2 0 (pad2 n +:+ rest) = Some (n, rest).
Proof. intros Hn. by rewrite parse_pad2_acc. Qed.

Lemma string_app_assoc (a b c : string) : (a +:+ b) +:+ c = a +:+ b +:+ c.
Proof.
  induction a as [|x a IH]; [done|].
  change (String x ((a +:+ b) +:+ c) = String x (a +:+ b +:+ c)).
  by rewrite IH.
Qed.

Lemma parse_digits_add (a b : nat) (acc : Z) (s : string) :
  parse_digits (a + b) acc s =
  match parse_digits a acc s with
  | Some (x, s') => parse_digits b x s'
  | None => None
  end.
Proof.
  revert acc s. induction a as [|a IH]; intros acc s; [done|].
  destruct s as [|c s]; [done|]. simpl. destruct (digit_val c); [apply IH | done].
Qed.

Lemma string_app_nil_l (s : string) : "" +:+ s = s.
Proof. reflexivity. Qed.

Lemma string_app_nil_r (s : string) : s +:+ "" = s.
Proof.
  induction s as [|c s IH]; [done|].
  change (String c (s +:+ "") = String c s). by rewrite IH.
Qed.

Lemma parse_pad4 (n : Z) (rest : string) :
  0 <= n <= 9999 -> parse_digits 4 0 (pad4 n +:+ rest) = Some (n, rest).
Proof.
  intros Hn. unfold pad4. rewrite string_app_assoc.
  rewrite (parse_digits_add 2 2).
  rewrite parse_pad2 by div_mod_bounds. rewrite parse_pad2_acc by div_mod_bounds.
  do 2 f_equal. div_mod_bounds.
Qed.

Lemma replace_Z_lacks (new a s : string) :
  lacks "Z" a = true -> replace "Z" new (a +:+ s) = a +:+ replace "Z" new s.
Proof.
  induction a as [|c a IH]; intros Hl; [done|].
  cbn [lacks] in Hl. apply andb_true_iff in Hl as [Hc Ha].
  change (String c a +:+ ?t) with (String c (a +:+ t)).
  rewrite replace_cons.
  change (String.prefix "Z" (String c ?t))
    with (if ascii_dec "Z" c then String.prefix "" t else false).
  destruct (ascii_dec "Z" c) as [<-|_]; [by vm_compute in Hc|]. by rewrite IH.
Qed.

Lemma split_sign_lacks (a r : string) :
  lacks "+" a = true -> lacks "-" a = true ->
  split_sign (a +:+ r) = (a +:+ (split_sign r).1, (split_sign r).2).
Proof.
  induction a as [|c a IH]; intros Hp Hm.
  { change (split_sign r = ((split_sign r).1, (split_sign r).2)).
    by destruct (split_sign r). }
  cbn [lacks] in Hp, Hm.
  apply andb_true_iff in Hp as [Hp Hp'], Hm as [Hm Hm'].
  change (String c a +:+ ?t) with (String c (a +:+ t)).
  cbn [split_sign]. unfold is_sign.
  apply negb_true_iff in Hp, Hm. rewrite Hp, Hm. cbn [orb].
  by rewrite IH.
Qed.

Lemma days_in_month_le (y m : Z) : days_in_month y m <= 31.
Proof.
  unfold days_in_month.
  repeat match goal with |- context [if ?b then _ else _] => destruct b end; lia.
Qed.

(** What the constructors' range checks give. *)
Lemma valid_ranges (dt : Datetime.t) :
  valid dt = true ->
  1 <= year dt <= 9999 /\ 1 <= month dt <= 12 /\ 1 <= day dt <= 31 /\
  0 <= hour dt <= 23 /\ 0 <= minute dt <= 59 /\ 0 <= second dt <= 59 /\
  0 <= microsecond dt <= 999999.
Proof.
  unfold valid. rewrite !andb_true_iff, !Z.leb_le.
  pose proof (days_in_month_le (year dt) (month dt)). lia.
Qed.

Lemma parse_documented_valid (s : string) (dt : Datetime.t) :
  parse_documented s = Some dt -> valid dt = true.
Proof.
  unfold parse_documented. intros H.
  destruct (parse_isoformat_date s) as [[[[y m] d] rest]|]; [|done].
  simpl in H.
  destruct (match rest with
            | EmptyString => _
            | String _ tstr => _
            end) as [dt'|]; [|done].
  simpl in H. destruct (valid dt') eqn:Hv; [|done]. by injection H as <-.
Qed.

Lemma parse_documented_year_first (s : string) (dt : Datetime.t) :
  parse_documented s = Some dt -> year_first s = true.
Proof.
  unfold parse_documented, parse_isoformat_date, year_first.
  by destruct (parse_digits 4 0 s) as [[y s']|].
Qed.

Lemma hour12_range (h : Z) : 0 <= h <= 23 -> 1 <= hour12 h <= 12.
Proof.
  intros Hh. unfold hour12. pose proof (Z.mod_pos_bound h 12).
  destruct (Z.eqb_spec (h mod 12) 0); lia.
Qed.

(** With no [Z] before the last character, replacing every [Z] is
    replacing a final one. *)
Lemma replace_Z_suffix_rule (new s : string) :
  inner_Z s = false ->
  replace "Z" new s =
  match strip_trailing_Z s with
  | Some body => body +:+ new
  | None => s
  end.
Proof.
  induction s as [|c s IH]; intros Hin; [done|].
  rewrite replace_cons.
  change (String.prefix "Z" (String c s))
    with (if ascii_dec "Z" c then String.prefix "" s else false).
  destruct s as [|c' s].
  - cbn [strip_trailing_Z].
    destruct (ascii_dec "Z" c) as [<-|Hne].
    + cbn. by rewrite string_app_nil_r.
    + destruct (Ascii.eqb_spec c "Z") as [->|_]; done.
  - cbn [inner_Z] in Hin. apply orb_false_iff in Hin as [Hc Hin].
    destruct (ascii_dec "Z" c) as [<-|_]; [done|].
    rewrite IH by done.
    change (strip_trailing_Z (String c (String c' s)))
      with (String c <$> strip_trailing_Z (String c' s)).
    by destruct (strip_trailing_Z (String c' s)).
Qed.

#[local] Arguments pad2 : simpl never.
#[local] Arguments pad4 : simpl never.
#[local] Arguments parse_digits : simpl never.

Section FormatTimestamp.

Context {rt : Runtime}.

(** What the documented grammar reads, every interpreter reads so. *)
Lemma fromisoformat_documented (s : string) (dt : Datetime.t) :
  parse_documented s = Some dt -> fromisoformat s = Some dt.
Proof. unfold fromisoformat. by intros ->. Qed.

(** Whatever is read is a [datetime] with its fields in range. *)
Lemma fromisoformat_valid (s : string) (dt : Datetime.t) :
  fromisoformat s = Some dt -> valid dt = true.
Proof.
  unfold fromisoformat.
  destruct (parse_documented s) as [dt'|] eqn:Hdoc.
  - intros [= <-]. by eapply parse_documented_valid.
  - apply further_valid.
Qed.

(** No interpreter reads a text that does not begin with a year. *)
Lemma fromisoformat_year_first (s : string) :
  year_first s = false -> fromisoformat s = None.
Proof.
  intros Hy. unfold fromisoformat.
  destruct (parse_documented s) as [dt|] eqn:Hdoc.
  - apply parse_documented_year_first in Hdoc. congruence.
  - destruct (fromisoformat_further s) as [dt|] eqn:Hf; [|done].
    apply further_year_first in Hf. congruence.
Qed.

Lemma format_timestamp_str (s : string) :
  format_timestamp (VStr s) =
  match fromisoformat (replace "Z" "+00:00" s) with
  | Some dt => VStr (strftime dt)
  | None => VStr s
  end.
Proof.
  unfold format_timestamp, py_fromisoformat. simpl.
  by destruct (fromisoformat (replace "Z" "+00:00" s)).
Qed.

(** A value that is not a string comes back as it is. *)
Lemma format_timestamp_not_str (v : pyval) :
  (forall s, v <> VStr s) -> format_timestamp v = v.
Proof. intros Hv. destruct v; try done. by destruct (Hv s). Qed.

Lemma replace_isoformat_Z (y mo d h mi s : Z) :
  valid (mk y mo d h mi s 0 None) = true ->
  replace "Z" "+00:00" (isoformat_Z y mo d h mi s) =
  pad4 y +:+ "-" +:+ pad2 mo +:+ "-" +:+ pad2 d +:+ "T" +:+
  pad2 h +:+ ":" +:+ pad2 mi +:+ ":" +:+ pad2 s +:+ "+00:00".
Proof.
  intros Hv%valid_ranges. simpl in Hv. unfold isoformat_Z.
  by rewrite !replace_Z_lacks
    by first [ apply lacks_pad4; [lia | done]
             | apply lacks_pad2; [lia | done]
             | reflexivity ].
Qed.

Lemma parse_hh_mm_ss_pad (h mi s : Z) :
  0 <= h <= 99 -> 0 <= mi <= 99 -> 0 <= s <= 99 ->
  parse_hh_mm_ss_ff (pad2 h +:+ ":" +:+ pad2 mi +:+ ":" +:+ pad2 s +:+ "")
  = Some (h, mi, s, 0).
Proof.
  intros Hh Hmi Hs. unfold parse_hh_mm_ss_ff.
  rewrite parse_pad2 by done. simpl. rewrite ?string_app_nil_l.
  rewrite parse_pad2 by done. simpl. rewrite ?string_app_nil_l.
  by rewrite parse_pad2 by done.
Qed.

Lemma valid_with_offset (y mo d h mi s us off : Z) :
  valid (mk y mo d h mi s us None) = true ->
  - day_us < off < day_us ->
  valid (mk y mo d h mi s us (Some off)) = true.
Proof.
  unfold valid. cbn [year month day hour minute second microsecond utcoffset].
  rewrite !andb_true_iff, !Z.ltb_lt. tauto.
Qed.

Lemma parse_documented_offset_zero (y mo d h mi s : Z) :
  valid (mk y mo d h mi s 0 None) = true ->
  parse_documented
    (pad4 y +:+ "-" +:+ pad2 mo +:+ "-" +:+ pad2 d +:+ "T" +:+
     pad2 h +:+ ":" +:+ pad2 mi +:+ ":" +:+ pad2 s +:+ "+00:00")
  = Some (mk y mo d h mi s 0 (Some 0)).
Proof.
  intros Hv. pose proof (valid_ranges _ Hv) as Hr. simpl in Hr.
  unfold parse_documented, parse_isoformat_date.
  rewrite parse_pad4 by lia. simpl. rewrite ?string_app_nil_l.
  rewrite parse_pad2 by lia. simpl. rewrite ?string_app_nil_l.
  rewrite parse_pad2 by lia. simpl. rewrite ?string_app_nil_l.
  unfold parse_isoformat_time.
  rewrite !split_sign_lacks
    by first [ apply lacks_pad2; [lia | done] | reflexivity ].
  change (split_sign "+00:00") with (EmptyString, Some ("+"%char, "00:00")).
  cbn [fst snd]. rewrite parse_hh_mm_ss_pad by lia.
  change (parse_offset "+" "00:00") with (Some 0).
  simpl. rewrite valid_with_offset; [done | done | by vm_compute].
Qed.

Lemma format_timestamp_documented (s : string) (dt : Datetime.t) :
  parse_documented (replace "Z" "+00:00" s) = Some dt ->
  format_timestamp (VStr s) = VStr (strftime dt).
Proof.
  intros Hdoc. rewrite format_timestamp_str.
  by rewrite (fromisoformat_documented _ _ Hdoc).
Qed.

(** X1: every instant GitHub writes as [YYYY-MM-DDTHH:MM:SSZ] is rendered
    from its own wall-clock fields. *)
Lemma format_timestamp_isoformat_Z (y mo d h mi s : Z) :
  valid (mk y mo d h mi s 0 None) = true ->
  format_timestamp (VStr (isoformat_Z y mo d h mi s)) =
  VStr (pad2 d +:+ " " +:+ month_name mo +:+ " " +:+ strftime_Y y +:+ " - " +:+
        pad2 (hour12 h) +:+ ":" +:+ pad2 mi +:+ " " +:+ am_pm h +:+ " UTC").
Proof.
  intros Hv.
  rewrite (format_timestamp_documented _ (mk y mo d h mi s 0 (Some 0))); [done|].
  rewrite replace_isoformat_Z by done. by apply parse_documented_offset_zero.
Qed.

(** C3, as amended: for an input whose only [Z], if any, is its last
    character, that [Z] stands for the offset [+00:00]; when
    [datetime.fromisoformat] reads the text so written, whichever ISO 8601
    forms the interpreter at hand reads, the output is
    [DD Month YYYY - hh:mm AM/PM UTC] built from the wall-clock fields it
    read, whatever the offset, and when it raises the input comes back as
    it is.  The two timestamps are read by every interpreter, and
    ["not-a-date"] by none. *)
Theorem format_timestamp_spec (s : string) :
  inner_Z s = false ->
  match
    fromisoformat
      match strip_trailing_Z s with
      | Some body => body +:+ "+00:00"
      | None => s
      end
  with
  | Some dt =>
      format_timestamp (VStr s) =
      VStr (pad2 (day dt) +:+ " " +:+ month_name (month dt) +:+ " " +:+
            strftime_Y (year dt) +:+ " - " +:+
            pad2 (hour12 (hour dt)) +:+ ":" +:+ pad2 (minute dt) +:+ " " +:+
            am_pm (hour dt) +:+ " UTC") /\
      1 <= day dt <= 31 /\ 1 <= month dt <= 12 /\ 1 <= year dt <= 9999 /\
      1 <= hour12 (hour dt) <= 12 /\ 0 <= minute dt <= 59 /\
      (1000 <= year dt -> strftime_Y (year dt) = pad4 (year dt))
  | None => format_timestamp (VStr s) = VStr s
  end /\
  format_timestamp (VStr s) = VStr (format_timestamp_suffix_rule s) /\
  format_timestamp (VStr "2024-03-15T14:30:00Z") =
    VStr "15 March 2024 - 02:30 PM UTC" /\
  format_timestamp (VStr "2024-03-15T14:30:00+05:30") =
    VStr "15 March 2024 - 02:30 PM UTC" /\
  format_timestamp (VStr "not-a-date") = VStr "not-a-date".
Proof.
  intros Hin. rewrite (format_timestamp_str s).
  unfold format_timestamp_suffix_rule.
  rewrite (replace_Z_suffix_rule "+00:00" s Hin).
  split; [|split; [|split; [|split]]].
  - destruct (fromisoformat _) as [dt|] eqn:Hdt; [|done].
    apply fromisoformat_valid, valid_ranges in Hdt.
    split; [done|]. repeat split; try lia.
    + apply hour12_range. lia.
    + apply hour12_range. lia.
    + intros Hy. unfold strftime_Y.
      destruct (Z.ltb_spec (year dt) 1000); [lia | done].
  - by destruct (fromisoformat _).
  - rewrite (format_timestamp_documented _ (mk 2024 3 15 14 30 0 0 (Some 0)))
      by (vm_compute; reflexivity).
    vm_compute. reflexivity.
  - rewrite (format_timestamp_documented _
               (mk 2024 3 15 14 30 0 0 (Some 19800000000)))
      by (vm_compute; reflexivity).
    vm_compute. reflexivity.
  - rewrite format_timestamp_str.
    by rewrite fromisoformat_year_first by (vm_compute; reflexivity).
Qed.

End FormatTimestamp.

(** ** Properties of the normalisers *)

Section Normalisers.

Context {rt : Runtime}.

Lemma py_get_dict (d : pydict) (key : string) (dflt : pyval) :
  py_get (VDict d) key dflt = Ok (get_or d key dflt).
Proof. reflexivity. Qed.

Lemma get_or_sub (d : pydict) (key : string) :
  dict_or_absent d key = true -> get_or d key (VDict ∅) = VDict (sub d key).
Proof.
  unfold dict_or_absent, get_or, sub. by destruct (d !! key) as [[]|].
Qed.

Lemma py_get2_dict (d : pydict) (k1 k2 : string) (dflt : pyval) :
  dict_or_absent d k1 = true ->
  py_get2 (VDict d) k1 k2 dflt = Ok (get_or (sub d k1) k2 dflt).
Proof.
  unfold py_get2, dict_or_absent, sub, get_or. simpl.
  destruct (d !! k1) as [[]|]; simpl; done.
Qed.

Lemma py_get2_raise (d : pydict) (k1 k2 : string) (dflt : pyval) :
  dict_or_absent d k1 = false ->
  py_get2 (VDict d) k1 k2 dflt = Raise AttributeError.
Proof.
  unfold py_get2, dict_or_absent. simpl.
  destruct (d !! k1) as [[]|]; simpl; done.
Qed.

Lemma push_branch_dict (d : pydict) :
  str_or_absent d "ref" = true ->
  push_branch (VDict d) = Ok (VStr (replace "refs/heads/" "" (text_of d "ref"))).
Proof.
  unfold push_branch, str_or_absent, text_of. simpl. unfold get_or, default.
  destruct (d !! "ref") as [[]|]; simpl; done.
Qed.

Lemma push_branch_raise (d : pydict) :
  str_or_absent d "ref" = false -> exists e, push_branch (VDict d) = Raise e.
Proof.
  unfold push_branch, str_or_absent. simpl.
  destruct (d !! "ref") as [[]|]; simpl; try done; by eexists.
Qed.

(** On a well-shaped payload a normaliser returns [record_of]. *)
Lemma normalize_shaped (k : kind) (d : pydict) :
  shaped k (VDict d) = true -> normalize k (VDict d) = Ok (record_of k d).
Proof.
  destruct k; simpl; rewrite !andb_true_iff.
  - intros [[Hp Hr] Hc]. unfold process_push_event.
    rewrite !py_get_dict, !py_get2_dict, !push_branch_dict by done. reflexivity.
  - intros [[[Hpr Hu] Hh] Hb]. unfold process_pull_request_event.
    rewrite py_get_dict, get_or_sub by done. simpl.
    rewrite !py_get2_dict by done. reflexivity.
  - intros [[[Hpr Hu] Hh] Hb]. unfold process_merge_event.
    rewrite py_get_dict, get_or_sub by done. simpl.
    rewrite !py_get2_dict by done. reflexivity.
Qed.

(** Off the well-shaped payloads a normaliser raises. *)
Lemma normalize_unshaped (k : kind) (payload : pyval) :
  shaped k payload = false -> exists e, normalize k payload = Raise e.
Proof.
  intros Hs.
  destruct payload as [| | | | | |d| |]; try (destruct k; by eexists).
  destruct k; simpl in Hs; simpl.
  - unfold process_push_event. rewrite py_get_dict. simpl.
    destruct (dict_or_absent d "pusher") eqn:Hp;
      [rewrite !(py_get2_dict d "pusher") by done | rewrite (py_get2_raise d "pusher") by done; simpl; by eexists].
    simpl.
    destruct (str_or_absent d "ref") eqn:Hr;
      [rewrite !push_branch_dict by done
      | destruct (push_branch_raise d Hr) as [e ->]; simpl; by eexists].
    simpl in *. rewrite (py_get2_raise d "head_commit") by done. simpl. by eexists.
  - unfold process_pull_request_event. rewrite py_get_dict.
    destruct (dict_or_absent d "pull_request") eqn:Hpr;
      [rewrite get_or_sub by done | unfold get_or, dict_or_absent in *;
       destruct (d !! "pull_request") as [[]|]; try done; simpl; by eexists].
    simpl.
    destruct (dict_or_absent (sub d "pull_request") "user") eqn:Hu;
      [rewrite !(py_get2_dict (sub d "pull_request") "user") by done | rewrite (py_get2_raise (sub d "pull_request") "user") by done; simpl; by eexists].
    simpl.
    destruct (dict_or_absent (sub d "pull_request") "head") eqn:Hh;
      [rewrite !(py_get2_dict (sub d "pull_request") "head") by done | rewrite (py_get2_raise (sub d "pull_request") "head") by done; simpl; by eexists].
    simpl in *. rewrite (py_get2_raise _ "base") by done. simpl. by eexists.
  - unfold process_merge_event. rewrite py_get_dict.
    destruct (dict_or_absent d "pull_request") eqn:Hpr;
      [rewrite get_or_sub by done | unfold get_or, dict_or_absent in *;
       destruct (d !! "pull_request") as [[]|]; try done; simpl; by eexists].
    simpl.
    destruct (dict_or_absent (sub d "pull_request") "merged_by") eqn:Hu;
      [rewrite !(py_get2_dict (sub d "pull_request") "merged_by") by done | rewrite (py_get2_raise (sub d "pull_request") "merged_by") by done; simpl; by eexists].
    simpl.
    destruct (dict_or_absent (sub d "pull_request") "head") eqn:Hh;
      [rewrite !(py_get2_dict (sub d "pull_request") "head") by done | rewrite (py_get2_raise (sub d "pull_request") "head") by done; simpl; by eexists].
    simpl in *. rewrite (py_get2_raise _ "base") by done. simpl. by eexists.
Qed.

(** A normaliser returns exactly on the well-shaped payloads. *)
Lemma normalize_ok_inv (k : kind) (payload : pyval) (rec : pydict) :
  normalize k payload = Ok rec ->
  exists d, payload = VDict d /\ shaped k payload = true /\ rec = record_of k d.
Proof.
  intros Hok. destruct (shaped k payload) eqn:Hs.
  - destruct payload as [| | | | | |d| |]; try (by destruct k).
    exists d. rewrite normalize_shaped in Hok by done.
    injection Hok as <-. done.
  - destruct (normalize_unshaped k payload Hs) as [e He]. congruence.
Qed.

Lemma record_of_action (k : kind) (d : pydict) :
  record_of k d !! "action" = Some (VStr (action_name k)).
Proof. by destruct k. Qed.

Lemma record_of_truthy (k : kind) (d : pydict) :
  truthy (VDict (record_of k d)) = true.
Proof.
  simpl. apply negb_true_iff, Nat.eqb_neq. intros Hsize.
  apply map_size_empty_iff in Hsize.
  pose proof (record_of_action k d) as Ha. rewrite Hsize in Ha. done.
Qed.

Lemma record_of_no_metadata (k : kind) (d : pydict) :
  record_of k d !! "_id" = None /\ record_of k d !! "created_at" = None /\
  record_of k d !! "raw_payload" = None.
Proof. by destruct k. Qed.

(** C2, as amended: on every well-shaped payload each normaliser returns
    a record, the one with every missing field replaced by its default;
    for a push without [pusher.name] the author is ["Unknown"]. *)
Theorem normalizers_total_on_shaped (k : kind) (payload : pyval) :
  shaped k payload = true ->
  exists d rec,
    payload = VDict d /\ normalize k payload = Ok rec /\ rec = record_of k d /\
    (k = KPush -> sub d "pusher" !! "name" = None ->
     rec !! "author" = Some (VStr "Unknown")).
Proof.
  intros Hs. destruct payload as [| | | | | |d| |]; try (by destruct k).
  exists d, (record_of k d). split; [done|]. split; [by apply normalize_shaped|].
  split; [done|]. intros -> Hname.
  change (Some (get_or (sub d "pusher") "name" (VStr "Unknown")) =
          Some (VStr "Unknown")).
  unfold get_or. by rewrite Hname.
Qed.

(** C5: the message of a produced record is its kind's template filled
    from the record's own author, branches and timestamp. *)
Theorem message_round_trip (k : kind) (payload : pyval) (rec : pydict) :
  normalize k payload = Ok rec ->
  rec !! "message" = Some (VStr (message_template k rec)).
Proof.
  intros Hok. destruct (normalize_ok_inv k payload rec Hok) as (d & _ & _ & ->).
  destruct k; reflexivity.
Qed.

(** C9: the opened and the merged normaliser read the same id and the
    same two branches. *)
Theorem pull_request_and_merge_agree (payload : pyval) (r1 r2 : pydict) :
  process_pull_request_event payload = Ok r1 ->
  process_merge_event payload = Ok r2 ->
  exists d,
    payload = VDict d /\
    r1 !! "id" = Some (VStr (py_str (get_or (sub d "pull_request") "id" (VStr "")))) /\
    r1 !! "from_branch" =
      Some (get_or (sub (sub d "pull_request") "head") "ref" (VStr "")) /\
    r1 !! "to_branch" =
      Some (get_or (sub (sub d "pull_request") "base") "ref" (VStr "")) /\
    r2 !! "id" = r1 !! "id" /\
    r2 !! "from_branch" = r1 !! "from_branch" /\
    r2 !! "to_branch" = r1 !! "to_branch".
Proof.
  intros H1 H2.
  destruct (normalize_ok_inv KPullRequest payload r1 H1) as (d & -> & _ & ->).
  destruct (normalize_ok_inv KMerge (VDict d) r2 H2) as (d' & [= <-] & _ & ->).
  exists d. repeat split; reflexivity.
Qed.

(** C10: without the source identifier the produced id is the empty
    string. *)
Theorem absent_id_is_empty (k : kind) (d rec : pydict) :
  normalize k (VDict d) = Ok rec ->
  id_source k d = None ->
  rec !! "id" = Some (VStr "").
Proof.
  intros Hok Hid.
  destruct (normalize_ok_inv k (VDict d) rec Hok) as (d' & [= <-] & _ & ->).
  destruct k; simpl in Hid.
  - change (Some (get_or d "after" (VStr "")) = Some (VStr "")).
    unfold get_or. by rewrite Hid.
  - change (Some (VStr (py_str (get_or (sub d "pull_request") "id" (VStr ""))))
            = Some (VStr "")).
    unfold get_or. by rewrite Hid.
  - change (Some (VStr (py_str (get_or (sub d "pull_request") "id" (VStr ""))))
            = Some (VStr "")).
    unfold get_or. by rewrite Hid.
Qed.

(** The branch of a push whose ref is [refs/heads/] followed by a name
    without that text is the name; a ref without that text is kept. *)
Lemma push_branch_leading (d : pydict) (name : string) :
  d !! "ref" = Some (VStr ("refs/heads/" +:+ name)) ->
  occurs "refs/heads/" name = false ->
  push_branch (VDict d) = Ok (VStr name).
Proof.
  intros Hd Hocc. rewrite push_branch_dict by (unfold str_or_absent; by rewrite Hd).
  unfold text_of. rewrite Hd.
  by rewrite (replace_leading "refs/heads/" "" name).
Qed.

Lemma push_branch_plain (d : pydict) (ref : string) :
  d !! "ref" = Some (VStr ref) ->
  occurs "refs/heads/" ref = false ->
  push_branch (VDict d) = Ok (VStr ref).
Proof.
  intros Hd Hocc. rewrite push_branch_dict by (unfold str_or_absent; by rewrite Hd).
  unfold text_of. rewrite Hd. by rewrite replace_absent.
Qed.

(** C4, where the code departs from it: a further [refs/heads/] inside the
    branch name is removed as well, so the branch
    [feature/refs/heads/x] is recorded as [feature/x]; the two refs the
    claim names come out as it says. *)
Theorem push_branch_inner_occurrence :
  let ref := "refs/heads/feature/refs/heads/x" in
  let payload := VDict {[ "ref" := VStr ref ]} in
  push_branch payload = Ok (VStr "feature/x") /\
  (exists rec, process_push_event payload = Ok rec /\
               rec !! "to_branch" = Some (VStr "feature/x")) /\
  strip_prefix "refs/heads/" ref = "feature/refs/heads/x" /\
  push_branch (VDict {[ "ref" := VStr "refs/heads/main" ]}) = Ok (VStr "main") /\
  push_branch (VDict {[ "ref" := VStr "main" ]}) = Ok (VStr "main").
Proof.
  intros ref payload.
  split; [by vm_compute|]. split; [|by vm_compute].
  exists (record_of KPush {[ "ref" := VStr ref ]}).
  pose proof (normalize_shaped KPush {[ "ref" := VStr ref ]}) as Hrec.
  split; [apply Hrec |]; vm_compute; reflexivity.
Qed.

End Normalisers.

(** ** Properties of the [/webhook] handler *)

Section Webhook.

Context {rt : Runtime}.

(** The nested tests of the handler select by the table, first match
    first. *)
Lemma select_event_routable (event_type : option string) (payload : pyval) :
  routable event_type payload = true ->
  select_event event_type payload =
  match rule_kind (dispatch_rule event_type payload) with
  | Some k => Some <$> normalize k payload
  | None => Ok None
  end.
Proof.
  unfold routable, select_event, dispatch_rule, action_is.
  destruct (header_is event_type "push"); [done|].
  destruct (header_is event_type "pull_request"); [|done].
  destruct payload as [| | | | | |d| |]; try done.
  intros Hr. rewrite py_get_dict. simpl.
  destruct (py_eq_str (get_or d "action" VNone) "opened"); [done|].
  destruct (py_eq_str (get_or d "action" VNone) "closed"); [|done].
  rewrite py_get2_dict by done. simpl.
  by destruct (truthy (get_or (sub d "pull_request") "merged" VNone)).
Qed.

(** Off the routable requests the dispatch raises. *)
Lemma select_event_unroutable (event_type : option string) (payload : pyval) :
  routable event_type payload = false ->
  select_event event_type payload = Raise AttributeError.
Proof.
  unfold routable, select_event, action_is.
  destruct (header_is event_type "push"); [done|].
  destruct (header_is event_type "pull_request"); [|done].
  destruct payload as [| | | | | |d| |]; try done.
  rewrite py_get_dict. simpl.
  destruct (py_eq_str (get_or d "action" VNone) "opened"); [done|].
  destruct (py_eq_str (get_or d "action" VNone) "closed"); [|done].
  intros Hr. by rewrite py_get2_raise.
Qed.

(** An event is selected only as the result of a normaliser. *)
Lemma select_event_some (event_type : option string) (payload : pyval)
    (rec : pydict) :
  select_event event_type payload = Ok (Some rec) ->
  exists k, normalize k payload = Ok rec.
Proof.
  intros Hsel. destruct (routable event_type payload) eqn:Hr.
  - rewrite select_event_routable in Hsel by done.
    destruct (rule_kind (dispatch_rule event_type payload)) as [k|]; [|done].
    exists k. destruct (normalize k payload); simpl in Hsel; congruence.
  - rewrite select_event_unroutable in Hsel by done. done.
Qed.

(** A produced record is never empty, so the test [if event_data] passes. *)
Lemma store_event_normalized (k : kind) (payload : pyval) (rec : pydict)
    (now : Z) (coll : collection) :
  normalize k payload = Ok rec ->
  store_event (Some rec) payload now coll =
  (Processed, insert_one (stamped rec payload now) coll).
Proof.
  intros Hok. destruct (normalize_ok_inv k payload rec Hok) as (d & _ & _ & ->).
  unfold store_event. by rewrite record_of_truthy.
Qed.

(** C1, as amended: on a request the dispatch does not raise on, the
    handler follows the table with [merged] tested for its truth value.
    The selected normaliser is run on the payload and its record stored;
    where no rule matches the answer is [ignored] and the collection is as
    before. *)
Theorem webhook_dispatch (event_type : option string) (payload : pyval)
    (now : Z) (coll : collection) :
  routable event_type payload = true ->
  webhook event_type payload now coll =
  match rule_kind (dispatch_rule event_type payload) with
  | Some k =>
      match normalize k payload with
      | Ok rec => (Processed, insert_one (stamped rec payload now) coll)
      | Raise e => (Failed e, coll)
      end
  | None => (Ignored, coll)
  end.
Proof.
  intros Hr. unfold webhook. rewrite select_event_routable by done.
  destruct (rule_kind (dispatch_rule event_type payload)) as [k|]; [|done].
  destruct (normalize k payload) as [rec|e] eqn:Hn; [|done].
  simpl. by apply (store_event_normalized k).
Qed.

(** Where the dispatch raises, on a payload or a [pull_request] that is
    not an object, the handler answers [error] and stores nothing. *)
Lemma webhook_unroutable (event_type : option string) (payload : pyval)
    (now : Z) (coll : collection) :
  routable event_type payload = false ->
  webhook event_type payload now coll = (Failed AttributeError, coll).
Proof. intros Hr. unfold webhook. by rewrite select_event_unroutable. Qed.


Lemma persisted_ok_stored (k : kind) (d : pydict) (payload : pyval) (now : Z)
    (oid : N) :
  persisted_ok (<["_id" := VObjectId oid]> (stamped (record_of k d) payload now))
  = true.
Proof. by destruct k. Qed.

Lemma insert_one_stamped (k : kind) (d : pydict) (payload : pyval) (now : Z)
    (coll : collection) :
  docs (insert_one (stamped (record_of k d) payload now) coll) =
  (docs coll ++
   [<["_id" := VObjectId (next_oid coll)]> (stamped (record_of k d) payload now)])%list.
Proof.
  unfold insert_one.
  assert (stamped (record_of k d) payload now !! "_id" = None) as ->
    by by destruct k.
  done.
Qed.

Lemma webhook_appends_ok (event_type : option string) (payload : pyval)
    (now : Z) (coll : collection) :
  exists new,
    docs (webhook event_type payload now coll).2 = docs coll ++ new /\
    (length new <= 1)%nat /\
    Forall (fun doc => persisted_ok doc = true) new /\
    ((webhook event_type payload now coll).1 = Processed <-> length new = 1%nat).
Proof.
  unfold webhook.
  destruct (select_event event_type payload) as [[rec|]|e] eqn:Hsel.
  - destruct (select_event_some _ _ _ Hsel) as [k Hk].
    rewrite (store_event_normalized k) by done. cbn [fst snd].
    destruct (normalize_ok_inv k payload rec Hk) as (d & _ & _ & ->).
    rewrite insert_one_stamped. eexists. split; [done|].
    split; [simpl; lia|]. split; [|done].
    constructor; [apply persisted_ok_stored | constructor].
  - exists []. simpl. rewrite app_nil_r. repeat split; try done; try lia.
  - exists []. simpl. rewrite app_nil_r. repeat split; try done; try lia.
Qed.

Lemma deliver_persisted_ok (requests : list (option string * pyval * Z))
    (coll : collection) :
  Forall (fun doc => persisted_ok doc = true) (docs coll) ->
  Forall (fun doc => persisted_ok doc = true) (docs (deliver requests coll)).
Proof.
  revert coll. induction requests as [|[[event_type payload] now] rest IH];
    intros coll Hcoll; [done|].
  cbn [deliver]. apply IH.
  destruct (webhook_appends_ok event_type payload now coll)
    as (new & -> & _ & Hnew & _).
  by apply Forall_app.
Qed.

(** C6: whatever the request, the handler appends at most one document,
    and a document it appends has one of the three actions, no
    [from_branch] key under [push] and a [from_branch] key under the
    other two; so has every document of a collection that the handler
    filled from empty. *)
Theorem webhook_persists_ok (event_type : option string) (payload : pyval)
    (now : Z) (coll : collection)
    (requests : list (option string * pyval * Z)) :
  (exists new,
     docs (webhook event_type payload now coll).2 = docs coll ++ new /\
     (length new <= 1)%nat /\
     Forall (fun doc => persisted_ok doc = true) new /\
     ((webhook event_type payload now coll).1 = Processed
      <-> length new = 1%nat)) /\
  Forall (fun doc => persisted_ok doc = true)
    (docs (deliver requests empty_collection)).
Proof.
  split; [apply webhook_appends_ok|].
  apply deliver_persisted_ok. constructor.
Qed.

End Webhook.

(** ** Properties of the [/api/events] handler *)

Lemma key_le_total (a b : option Z) : key_le a b = false -> key_le b a = true.
Proof.
  destruct a as [x|], b as [y|]; simpl; try done.
  rewrite Z.leb_gt, Z.leb_le. lia.
Qed.

Lemma key_le_trans (a b c : option Z) :
  key_le a b = true -> key_le b c = true -> key_le a c = true.
Proof.
  destruct a as [x|], b as [y|], c as [z|]; simpl; try done.
  rewrite !Z.leb_le. lia.
Qed.

Lemma insert_desc_perm (x : pydict) (l : list pydict) :
  insert_desc x l ≡ₚ x :: l.
Proof.
  induction l as [|y l IH]; simpl; [done|].
  destruct (key_le (created_at y) (created_at x)); [done|].
  rewrite IH. apply perm_swap.
Qed.

Lemma sort_desc_perm (l : list pydict) : sort_desc l ≡ₚ l.
Proof.
  induction l as [|x l IH]; simpl; [done|].
  by rewrite insert_desc_perm, IH.
Qed.

Lemma insert_desc_sorted (x : pydict) (l : list pydict) :
  StronglySorted newer_eq l -> StronglySorted newer_eq (insert_desc x l).
Proof.
  induction l as [|y l IH]; intros Hs; simpl.
  - repeat constructor.
  - apply StronglySorted_cons in Hs as [Hy Hl].
    destruct (key_le (created_at y) (created_at x)) eqn:Hyx.
    + constructor; [by constructor|].
      constructor; [done|].
      eapply Forall_impl; [exact Hy|]. intros z Hz. unfold newer_eq in *.
      by eapply key_le_trans.
    + constructor; [by apply IH|].
      rewrite insert_desc_perm. constructor; [|done].
      by apply key_le_total.
Qed.

Lemma sort_desc_sorted (l : list pydict) : StronglySorted newer_eq (sort_desc l).
Proof.
  induction l as [|x l IH]; simpl; [constructor | by apply insert_desc_sorted].
Qed.

Lemma created_at_project (d : pydict) : created_at (project d) = created_at d.
Proof. unfold created_at, project. by rewrite !lookup_delete_ne. Qed.

Lemma project_strips (d : pydict) :
  project d !! "raw_payload" = None /\ project d !! "_id" = None.
Proof.
  unfold project. split.
  - rewrite lookup_delete_ne by done. apply lookup_delete_eq.
  - apply lookup_delete_eq.
Qed.

Lemma newest_first_sorted (l : list pydict) :
  StronglySorted newer_eq l -> newest_first (project <$> l) = true.
Proof.
  induction 1 as [|x l Hl IH Hx]; [done|].
  rewrite fmap_cons. cbn [newest_first]. rewrite IH, andb_true_r.
  destruct l as [|y l]; [done|].
  rewrite fmap_cons, !created_at_project. by inversion Hx.
Qed.

(** In a list of strictly increasing dates the head is older than all
    that follows. *)
Lemma increasing_head (x : pydict) (l : list pydict) :
  increasing (x :: l) = true ->
  Forall (fun y => key_le (created_at y) (created_at x) = false) l /\
  increasing l = true.
Proof.
  revert x. induction l as [|y l IH]; intros x Hx; [done|].
  cbn [increasing] in Hx.
  apply andb_true_iff in Hx as [Hx Hyl]. apply andb_true_iff in Hx as [_ Hxy].
  split; [|done].
  destruct (IH y Hyl) as [Hy _].
  destruct (created_at x) as [a|] eqn:Ha; [|done].
  destruct (created_at y) as [b|] eqn:Hb; [|done].
  apply Z.ltb_lt in Hxy.
  constructor.
  - rewrite Hb. simpl. apply Z.leb_gt. lia.
  - eapply Forall_impl; [exact Hy|]. intros z Hz. simpl in Hz.
    destruct (created_at z) as [c|]; [|done]. simpl.
    apply Z.leb_gt in Hz. apply Z.leb_gt. lia.
Qed.

Lemma insert_desc_oldest (x : pydict) (l : list pydict) :
  Forall (fun y => key_le (created_at y) (created_at x) = false) l ->
  insert_desc x l = l ++ [x].
Proof.
  induction 1 as [|y l Hy _ IH]; [done|].
  simpl. by rewrite Hy, IH.
Qed.

Lemma sort_desc_increasing (l : list pydict) :
  increasing l = true -> sort_desc l = reverse l.
Proof.
  induction l as [|x l IH]; intros Hl; [done|].
  destruct (increasing_head x l Hl) as [Hx Hl'].
  simpl. rewrite IH, reverse_cons by done.
  apply insert_desc_oldest. by apply Forall_reverse.
Qed.

(** C7: the read path returns [min 20 n] documents, newest first, each
    one a stored document without [raw_payload] and [_id], none of them
    older than a document left out; nothing stored gives the empty list;
    and when the dates increase strictly in insertion order it returns the
    last 20 inserted, the latest first. *)
Theorem get_events_latest (coll : collection) :
  length (get_events coll) = Nat.min 20 (length (docs coll)) /\
  newest_first (get_events coll) = true /\
  Forall (fun d => d !! "raw_payload" = None /\ d !! "_id" = None)
    (get_events coll) /\
  (exists picked rest,
     get_events coll = project <$> picked /\
     picked ++ rest ≡ₚ docs coll /\
     forall x y, x ∈ picked -> y ∈ rest ->
       key_le (created_at y) (created_at x) = true) /\
  (docs coll = [] -> get_events coll = []) /\
  (increasing (docs coll) = true ->
   get_events coll = project <$> take 20 (reverse (docs coll))) /\
  (increasing (docs coll) = true -> length (docs coll) = 25%nat ->
   get_events coll = project <$> reverse (drop 5 (docs coll))).
Proof.
  unfold get_events.
  pose proof (sort_desc_sorted (docs coll)) as Hsorted.
  pose proof (sort_desc_perm (docs coll)) as Hperm.
  rewrite <- (take_drop 20 (sort_desc (docs coll))) in Hsorted, Hperm.
  repeat split.
  - by rewrite length_fmap, length_take, (Permutation_length (sort_desc_perm _)).
  - apply newest_first_sorted. by eapply StronglySorted_app_1_l.
  - apply Forall_fmap, Forall_true. intros d. apply project_strips.
  - exists (take 20 (sort_desc (docs coll))), (drop 20 (sort_desc (docs coll))).
    repeat split; [done|].
    intros x y Hx Hy. by apply (StronglySorted_app_1_elem_of _ _ _ _ _ Hsorted).
  - by intros ->.
  - intros Hinc. by rewrite sort_desc_increasing.
  - intros Hinc Hlen. rewrite sort_desc_increasing, take_reverse, Hlen by done.
    done.
Qed.


(** * Further properties *)

(** ** The timestamp formatter *)

Lemma replace_Z_lacks_id (new s : string) :
  lacks "Z" s = true -> replace "Z" new s = s.
Proof.
  intros Hs. rewrite <- (string_app_nil_r s) at 1.
  rewrite replace_Z_lacks by done. apply string_app_nil_r.
Qed.

Lemma parse_digits_not_digit (n : nat) (acc : Z) (c : ascii) (s : string) :
  digit_val c = None -> parse_digits (S n) acc (String c s) = None.
Proof.
  intros Hc.
  change (parse_digits (S n) acc (String c s))
    with (match digit_val c with
          | Some d => parse_digits n (10 * acc + d) s
          | None => None
          end).
  by rewrite Hc.
Qed.

(** A text that starts with two digits and a space does not begin with
    a year. *)
Lemma year_first_day_first (d : Z) (rest : string) :
  0 <= d <= 99 -> year_first (pad2 d +:+ " " +:+ rest) = false.
Proof.
  intros Hd. unfold year_first.
  rewrite (parse_digits_add 2 2), parse_pad2 by done.
  change (" " +:+ rest) with (String " " rest).
  by rewrite parse_digits_not_digit.
Qed.

Lemma parse_hh_mm_pad (h m : Z) :
  0 <= h <= 99 -> 0 <= m <= 99 ->
  parse_hh_mm_ss_ff (pad2 h +:+ ":" +:+ pad2 m) = Some (h, m, 0, 0).
Proof.
  intros Hh Hm. unfold parse_hh_mm_ss_ff.
  rewrite parse_pad2 by done. simpl. rewrite ?string_app_nil_l.
  rewrite <- (string_app_nil_r (pad2 m)).
  by rewrite parse_pad2 by done.
Qed.

Lemma length_offset_text (h m : Z) :
  String.length (pad2 h +:+ ":" +:+ pad2 m) = 5%nat.
Proof. reflexivity. Qed.

(** The offset form [+HH:MM] or [-HH:MM] in the documented grammar. *)
Lemma parse_documented_offset (y mo d h mi s : Z) (sign : ascii) (oh om : Z) :
  valid (mk y mo d h mi s 0 None) = true ->
  is_sign sign = true ->
  0 <= oh <= 23 -> 0 <= om <= 59 ->
  exists off,
    parse_documented (isoformat_offset y mo d h mi s sign oh om)
    = Some (mk y mo d h mi s 0 (Some off)).
Proof.
  intros Hv Hsign Hoh Hom.
  pose proof (valid_ranges _ Hv) as Hr. simpl in Hr.
  unfold isoformat_offset, parse_documented, parse_isoformat_date.
  rewrite parse_pad4 by lia. simpl. rewrite ?string_app_nil_l.
  rewrite parse_pad2 by lia. simpl. rewrite ?string_app_nil_l.
  rewrite parse_pad2 by lia. simpl. rewrite ?string_app_nil_l.
  unfold parse_isoformat_time.
  rewrite !split_sign_lacks
    by first [ apply lacks_pad2; [lia | done] | reflexivity ].
  cbn [split_sign]. rewrite Hsign. cbn [fst snd].
  rewrite parse_hh_mm_ss_pad by lia.
  unfold parse_offset. rewrite length_offset_text, parse_hh_mm_pad by lia.
  simpl. eexists. rewrite valid_with_offset; [done | done |].
  unfold day_us. destruct (Ascii.eqb sign "-"); lia.
Qed.

Section TimestampFurther.

Context {rt : Runtime}.

(** X2: the offset of a timestamp is not applied.  An instant written
    with the offset [+HH:MM] or [-HH:MM] is rendered from the wall-clock
    fields as they are written, and labelled UTC all the same. *)
Theorem format_timestamp_ignores_offset (y mo d h mi s : Z) (sign : ascii)
    (oh om : Z) :
  valid (mk y mo d h mi s 0 None) = true ->
  is_sign sign = true ->
  0 <= oh <= 23 -> 0 <= om <= 59 ->
  format_timestamp (VStr (isoformat_offset y mo d h mi s sign oh om)) =
  VStr (pad2 d +:+ " " +:+ month_name mo +:+ " " +:+ strftime_Y y +:+ " - " +:+
        pad2 (hour12 h) +:+ ":" +:+ pad2 mi +:+ " " +:+ am_pm h +:+ " UTC").
Proof.
  intros Hv Hsign Hoh Hom.
  pose proof (valid_ranges _ Hv) as Hr. simpl in Hr.
  assert (Ascii.eqb sign "Z" = false) as HsZ.
  { unfold is_sign in Hsign. apply orb_true_iff in Hsign as [H|H];
      apply Ascii.eqb_eq in H; by subst. }
  destruct (parse_documented_offset y mo d h mi s sign oh om Hv Hsign Hoh Hom)
    as [off Hdoc].
  rewrite (format_timestamp_documented _ (mk y mo d h mi s 0 (Some off)));
    [done|].
  rewrite replace_Z_lacks_id; [done|].
  unfold isoformat_offset.
  rewrite !lacks_app. cbn [lacks]. rewrite HsZ, !lacks_app.
  rewrite lacks_pad4, !lacks_pad2 by (done || lia). reflexivity.
Qed.

(** X3: formatting is idempotent.  What [format_timestamp] returns, a
    rendered date or the argument itself, comes back unchanged when it is
    formatted again. *)
Theorem format_timestamp_idempotent (v : pyval) :
  format_timestamp (format_timestamp v) = format_timestamp v.
Proof.
  destruct v as [| | | |s| | | |]; try reflexivity.
  rewrite (format_timestamp_str s).
  destruct (fromisoformat (replace "Z" "+00:00" s)) as [dt|] eqn:Hdt.
  - pose proof (valid_ranges _ (fromisoformat_valid _ _ Hdt)) as Hr.
    rewrite format_timestamp_str. unfold strftime.
    rewrite replace_Z_lacks by (apply lacks_pad2; [lia | done]).
    rewrite (replace_Z_lacks _ " ") by reflexivity.
    by rewrite fromisoformat_year_first by (apply year_first_day_first; lia).
  - rewrite format_timestamp_str. by rewrite Hdt.
Qed.

End TimestampFurther.

(** ** The normalisers *)

Section NormalisersFurther.

Context {rt : Runtime}.

Lemma format_timestamp_empty : format_timestamp (VStr "") = VStr "".
Proof.
  rewrite format_timestamp_str. by rewrite fromisoformat_year_first.
Qed.

(** X4: every missing source field gives its placeholder, in each of the
    three normalisers: author ["Unknown"], the branches and the timestamp
    the empty text. *)
Theorem absent_fields_default (k : kind) (d rec : pydict) :
  normalize k (VDict d) = Ok rec ->
  (author_source k d = None -> rec !! "author" = Some (VStr "Unknown")) /\
  (to_branch_source k d = None -> rec !! "to_branch" = Some (VStr "")) /\
  (timestamp_source k d = None -> rec !! "timestamp" = Some (VStr "")) /\
  (from_branch_source d = None ->
   rec !! "from_branch" = if k is KPush then None else Some (VStr "")).
Proof.
  intros Hok.
  destruct (normalize_ok_inv k (VDict d) rec Hok) as (d' & [= <-] & Hs & ->).
  destruct k; simpl in Hs |- *; unfold from_branch_source.
  - refine (conj _ (conj _ (conj _ _))); intros Hsrc.
    + change (Some (get_or (sub d "pusher") "name" (VStr "Unknown"))
              = Some (VStr "Unknown")). unfold get_or. by rewrite Hsrc.
    + change (Some (VStr (replace "refs/heads/" "" (text_of d "ref")))
              = Some (VStr "")). unfold text_of. by rewrite Hsrc.
    + change (Some (format_timestamp
                      (get_or (sub d "head_commit") "timestamp" (VStr "")))
              = Some (VStr "")). unfold get_or. rewrite Hsrc.
      exact (f_equal Some format_timestamp_empty).
    + reflexivity.
  - refine (conj _ (conj _ (conj _ _))); intros Hsrc.
    + change (Some (get_or (sub (sub d "pull_request") "user") "login"
                      (VStr "Unknown")) = Some (VStr "Unknown")).
      unfold get_or. by rewrite Hsrc.
    + change (Some (get_or (sub (sub d "pull_request") "base") "ref" (VStr ""))
              = Some (VStr "")). unfold get_or. by rewrite Hsrc.
    + change (Some (format_timestamp
                      (get_or (sub d "pull_request") "created_at" (VStr "")))
              = Some (VStr "")). unfold get_or. rewrite Hsrc.
      exact (f_equal Some format_timestamp_empty).
    + change (Some (get_or (sub (sub d "pull_request") "head") "ref" (VStr ""))
              = Some (VStr "")). unfold get_or. by rewrite Hsrc.
  - refine (conj _ (conj _ (conj _ _))); intros Hsrc.
    + change (Some (get_or (sub (sub d "pull_request") "merged_by") "login"
                      (VStr "Unknown")) = Some (VStr "Unknown")).
      unfold get_or. by rewrite Hsrc.
    + change (Some (get_or (sub (sub d "pull_request") "base") "ref" (VStr ""))
              = Some (VStr "")). unfold get_or. by rewrite Hsrc.
    + change (Some (format_timestamp
                      (get_or (sub d "pull_request") "merged_at" (VStr "")))
              = Some (VStr "")). unfold get_or. rewrite Hsrc.
      exact (f_equal Some format_timestamp_empty).
    + change (Some (get_or (sub (sub d "pull_request") "head") "ref" (VStr ""))
              = Some (VStr "")). unfold get_or. by rewrite Hsrc.
Qed.

Lemma record_of_dom (k : kind) (d : pydict) : dom (record_of k d) = record_keys k.
Proof.
  destruct k; unfold record_of, record_keys; cbn [list_to_map foldr uncurry];
    rewrite !dom_insert_L, dom_empty_L; set_solver.
Qed.

(** X5: a produced record has exactly the keys of its kind, six for a
    push and seven, with [from_branch], for the other two; its [action]
    and [message] are texts, and so are the [to_branch] of a push and the
    [id] of a pull request or a merge, whatever the payload holds. *)
Theorem record_keys_and_texts (k : kind) (payload : pyval) (rec : pydict) :
  normalize k payload = Ok rec ->
  dom rec = record_keys k /\
  rec !! "action" = Some (VStr (action_name k)) /\
  is_text (rec !! "message") = true /\
  is_text (rec !! (if k is KPush then "to_branch" else "id")) = true.
Proof.
  intros Hok.
  destruct (normalize_ok_inv k payload rec Hok) as (d & _ & _ & ->).
  split; [apply record_of_dom|]. split; [apply record_of_action|].
  by destruct k.
Qed.

(** X6: the branch of a push.  When the ref is [refs/heads/] followed by
    a name in which that text does not occur again, [to_branch] is the
    name; and a ref in which it does not occur at all is kept as it is. *)
Theorem push_to_branch_of_ref (d rec : pydict) (name : string) :
  process_push_event (VDict d) = Ok rec ->
  occurs "refs/heads/" name = false ->
  (d !! "ref" = Some (VStr ("refs/heads/" +:+ name)) ->
   rec !! "to_branch" = Some (VStr name)) /\
  (d !! "ref" = Some (VStr name) -> rec !! "to_branch" = Some (VStr name)).
Proof.
  intros Hok Hocc.
  destruct (normalize_ok_inv KPush (VDict d) rec Hok) as (d' & [= <-] & _ & ->).
  change (record_of KPush d !! "to_branch")
    with (Some (VStr (replace "refs/heads/" "" (text_of d "ref")))).
  unfold text_of. split; intros ->.
  - by rewrite (replace_leading "refs/heads/" "" name).
  - by rewrite replace_absent.
Qed.

Lemma py_str_int_inj (z1 z2 : Z) :
  py_str (VInt z1) = py_str (VInt z2) -> z1 = z2.
Proof.
  unfold py_str. intros Heq.
  assert (forall z, NilZero.int_of_string (NilZero.string_of_int (Z.to_int z))
                    = Some (Z.to_int z)) as Hisi.
  { intros z. apply NilZero.isi; destruct z; simpl; try done;
      intros [= H]; by apply Unsigned.to_uint_nonnil in H. }
  pose proof (Hisi z1) as H1. rewrite Heq, Hisi in H1.
  injection H1 as H1. rewrite <- (DecimalZ.of_to z1), <- (DecimalZ.of_to z2).
  by rewrite H1.
Qed.

(** X7: a numeric pull-request id is recorded as its decimal text, and
    two pull requests (opened or merged) with different numeric ids get
    different [id] fields. *)
Theorem pull_request_id_decimal (k : kind) (d1 d2 r1 r2 : pydict) (z1 z2 : Z) :
  k <> KPush ->
  normalize k (VDict d1) = Ok r1 ->
  normalize k (VDict d2) = Ok r2 ->
  sub d1 "pull_request" !! "id" = Some (VInt z1) ->
  sub d2 "pull_request" !! "id" = Some (VInt z2) ->
  r1 !! "id" = Some (VStr (NilZero.string_of_int (Z.to_int z1))) /\
  (r1 !! "id" = r2 !! "id" -> z1 = z2).
Proof.
  intros Hk H1 H2 Hz1 Hz2.
  destruct (normalize_ok_inv k (VDict d1) r1 H1) as (d' & [= <-] & _ & ->).
  destruct (normalize_ok_inv k (VDict d2) r2 H2) as (d' & [= <-] & _ & ->).
  assert (forall d z, sub d "pull_request" !! "id" = Some (VInt z) ->
            record_of k d !! "id" = Some (VStr (py_str (VInt z)))) as Hid.
  { intros d z Hz. destruct k; [done| |];
      change (Some (VStr (py_str (get_or (sub d "pull_request") "id" (VStr ""))))
              = Some (VStr (py_str (VInt z))));
      unfold get_or; by rewrite Hz. }
  rewrite (Hid d1 z1 Hz1), (Hid d2 z2 Hz2). split; [done|].
  intros [= Heq]. by apply py_str_int_inj.
Qed.

(** X8: a normaliser returns a record on the well-shaped payloads and
    on no other payload: a value of the wrong type where a method is
    called always makes it raise. *)
Theorem normalize_ok_iff_shaped (k : kind) (payload : pyval) :
  (exists rec, normalize k payload = Ok rec) <-> shaped k payload = true.
Proof.
  split.
  - intros [rec Hok]. by destruct (normalize_ok_inv k payload rec Hok) as (_ & _ & ? & _).
  - intros Hs. destruct payload as [| | | | | |d| |]; try (by destruct k).
    exists (record_of k d). by apply normalize_shaped.
Qed.

End NormalisersFurther.

(** ** The handlers and the dashboard *)

Section WebhookFurther.

Context {rt : Runtime}.

Lemma project_stored (k : kind) (d : pydict) (payload : pyval) (now : Z)
    (oid : N) :
  project (<["_id" := VObjectId oid]> (stamped (record_of k d) payload now)) =
  <["created_at" := VDatetime now]> (record_of k d).
Proof.
  destruct (record_of_no_metadata k d) as (Hid & _ & Hraw).
  unfold project, stamped.
  rewrite (delete_insert_ne _ "raw_payload" "_id") by done.
  rewrite delete_insert_eq, delete_insert_eq.
  rewrite (delete_id _ "raw_payload") by by rewrite lookup_insert_ne.
  apply delete_id. by rewrite lookup_insert_ne.
Qed.

Lemma created_at_stored (k : kind) (d : pydict) (payload : pyval) (now : Z)
    (oid : N) :
  created_at (<["_id" := VObjectId oid]> (stamped (record_of k d) payload now))
  = Some now.
Proof.
  unfold created_at, stamped.
  rewrite !lookup_insert_ne by done. by rewrite lookup_insert_eq.
Qed.

(** What a request does to the collection: nothing, or the append of the
    stamped record of a normaliser. *)
Lemma webhook_effect (event_type : option string) (payload : pyval) (now : Z)
    (coll : collection) :
  ((webhook event_type payload now coll).1 <> Processed /\
   (webhook event_type payload now coll).2 = coll) \/
  (exists k d,
     (webhook event_type payload now coll).1 = Processed /\
     rule_kind (dispatch_rule event_type payload) = Some k /\
     normalize k payload = Ok (record_of k d) /\
     (webhook event_type payload now coll).2 =
       {| docs := docs coll ++
            [<["_id" := VObjectId (next_oid coll)]>
               (stamped (record_of k d) payload now)];
          next_oid := N.succ (next_oid coll) |}).
Proof.
  unfold webhook. destruct (routable event_type payload) eqn:Hr;
    [|rewrite select_event_unroutable by done; by left].
  rewrite select_event_routable by done.
  destruct (rule_kind (dispatch_rule event_type payload)) as [k|]; [|by left].
  destruct (normalize k payload) as [rec|e] eqn:Hk; [|by left].
  cbn [fmap result_fmap]. rewrite (store_event_normalized k) by done.
  destruct (normalize_ok_inv k payload rec Hk) as (d & _ & _ & ->).
  right. exists k, d. split; [done|]. split; [done|]. split; [done|]. cbn [snd].
  unfold insert_one.
  assert (stamped (record_of k d) payload now !! "_id" = None) as ->
    by by destruct k.
  done.
Qed.

(** X9: a request answered [success] appends exactly one document: the
    record of the normaliser that the table selects, together with
    [created_at], the clock reading, [raw_payload], the payload as it
    came, and a fresh [_id]; under any other answer the collection is
    left as it was. *)
Theorem webhook_stores_stamped (event_type : option string) (payload : pyval)
    (now : Z) (coll : collection) :
  ((webhook event_type payload now coll).1 = Processed ->
   exists k rec doc,
     rule_kind (dispatch_rule event_type payload) = Some k /\
     normalize k payload = Ok rec /\
     docs (webhook event_type payload now coll).2 = docs coll ++ [doc] /\
     doc !! "raw_payload" = Some payload /\
     doc !! "created_at" = Some (VDatetime now) /\
     doc !! "_id" = Some (VObjectId (next_oid coll)) /\
     project doc = <["created_at" := VDatetime now]> rec) /\
  ((webhook event_type payload now coll).1 <> Processed ->
   (webhook event_type payload now coll).2 = coll).
Proof.
  destruct (webhook_effect event_type payload now coll)
    as [[Hno Hsame]|(k & d & Hyes & Hk & Hn & Hcoll)].
  - split; [done|]. by intros _.
  - split; [|done]. intros _. rewrite Hcoll. cbn [docs].
    eexists k, _, _. split; [exact Hk|]. split; [exact Hn|]. split; [done|].
    split; [|split; [|split]].
    + rewrite lookup_insert_ne by done. apply lookup_insert_eq.
    + unfold stamped. rewrite !lookup_insert_ne by done. apply lookup_insert_eq.
    + apply lookup_insert_eq.
    + apply project_stored.
Qed.

Lemma insert_desc_newest (x : pydict) (l : list pydict) :
  Forall (fun y => key_le (created_at x) (created_at y) = false) l ->
  sort_desc (l ++ [x]) = x :: sort_desc l.
Proof.
  induction 1 as [|y l Hy _ IH]; [done|].
  cbn [app sort_desc]. rewrite IH. cbn [insert_desc]. by rewrite Hy.
Qed.

Lemma key_le_antisym (a b : option Z) :
  key_le a b = true -> key_le b a = true -> a = b.
Proof.
  destruct a as [x|], b as [y|]; simpl; try done.
  rewrite !Z.leb_le. intros. f_equal. lia.
Qed.

Lemma distinct_dates_inj (l : list pydict) (x y : pydict) :
  distinct_dates l -> x ∈ l -> y ∈ l -> created_at x = created_at y -> x = y.
Proof.
  unfold distinct_dates. induction l as [|z l IH]; intros Hnd Hx Hy Heq.
  - by apply elem_of_nil in Hx.
  - rewrite fmap_cons in Hnd. apply NoDup_cons in Hnd as [Hz Hnd].
    apply elem_of_cons in Hx as [->|Hx]; apply elem_of_cons in Hy as [->|Hy].
    + done.
    + destruct Hz. rewrite Heq. by apply list_elem_of_fmap_2.
    + destruct Hz. rewrite <- Heq. by apply list_elem_of_fmap_2.
    + by apply IH.
Qed.

(** With distinct dates there is one newest-first order only. *)
Lemma sort_desc_unique (l l' : list pydict) :
  distinct_dates l -> l' ≡ₚ l -> StronglySorted newer_eq l' ->
  l' = sort_desc l.
Proof.
  intros Hnd Hperm Hsorted.
  apply (StronglySorted_unique_strong newer_eq);
    [|done|apply sort_desc_sorted|by rewrite sort_desc_perm].
  intros x1 x2 H1 H2 H12 H21.
  rewrite Hperm in H1. rewrite sort_desc_perm in H2.
  apply (distinct_dates_inj l); [done..|].
  unfold newer_eq in *. by apply key_le_antisym.
Qed.

Lemma distinct_dates_snoc (l : list pydict) (x : pydict) (now : Z) :
  distinct_dates l ->
  Forall (fun doc => older_than now doc = true) l ->
  created_at x = Some now ->
  distinct_dates (l ++ [x]).
Proof.
  unfold distinct_dates. intros Hnd Hold Hx.
  rewrite fmap_app. apply NoDup_app. split; [done|].
  split; [|apply NoDup_singleton].
  intros a Ha Hin. apply list_elem_of_singleton in Hin as ->.
  apply list_elem_of_fmap in Ha as (doc & Hdoc & Hin).
  rewrite Forall_forall in Hold. specialize (Hold doc Hin).
  unfold older_than in Hold. rewrite Hx in Hdoc. rewrite <- Hdoc in Hold.
  apply Z.ltb_lt in Hold. lia.
Qed.

(** X10: an event is read back as stored.  Take a collection whose
    stored dates are pairwise distinct, so that its newest-first order
    is unique and what the server does with equal keys plays no part.
    After a request answered [success] at a clock reading later than every
    stored date, the read path returns first the record of the selected
    normaliser with its [created_at], and after it what it returned
    before, cut to 19; and before as after the request every newest-first
    arrangement of the stored documents is the one read. *)
Theorem webhook_then_get_events (event_type : option string) (payload : pyval)
    (now : Z) (coll : collection) :
  (webhook event_type payload now coll).1 = Processed ->
  Forall (fun doc => older_than now doc = true) (docs coll) ->
  distinct_dates (docs coll) ->
  exists k rec,
    rule_kind (dispatch_rule event_type payload) = Some k /\
    normalize k payload = Ok rec /\
    get_events (webhook event_type payload now coll).2 =
    <["created_at" := VDatetime now]> rec :: take 19 (get_events coll) /\
    (forall l, l ≡ₚ docs coll -> StronglySorted newer_eq l ->
               l = sort_desc (docs coll)) /\
    (forall l, l ≡ₚ docs (webhook event_type payload now coll).2 ->
               StronglySorted newer_eq l ->
               l = sort_desc (docs (webhook event_type payload now coll).2)).
Proof.
  intros Hyes Hold Hnd.
  destruct (webhook_effect event_type payload now coll)
    as [[Hno _]|(k & d & _ & Hk & Hn & Hcoll)]; [done|].
  exists k, (record_of k d). split; [done|]. split; [done|].
  rewrite Hcoll. cbn [docs]. split; [|split].
  - unfold get_events. cbn [docs]. rewrite insert_desc_newest.
    + cbn [take fmap list_fmap]. rewrite project_stored. f_equal.
      rewrite <- fmap_take. by rewrite take_take.
    + eapply Forall_impl; [exact Hold|]. intros doc Hdoc.
      rewrite created_at_stored. unfold older_than in Hdoc.
      destruct (created_at doc) as [t|]; [|done]. simpl.
      apply Z.ltb_lt in Hdoc. apply Z.leb_gt. lia.
  - intros l. by apply sort_desc_unique.
  - intros l. apply sort_desc_unique.
    apply (distinct_dates_snoc _ _ now); [done|done|apply created_at_stored].
Qed.

Lemma increasing_snoc (l : list pydict) (x : pydict) (now : Z) :
  increasing l = true ->
  Forall (fun doc => dated_before now doc = true) l ->
  created_at x = Some now ->
  increasing (l ++ [x]) = true.
Proof.
  intros Hl Hb Hx. induction l as [|y l IH].
  - simpl. unfold dated. by rewrite Hx.
  - cbn [app increasing] in *.
    apply andb_true_iff in Hl as [Hl Hl']. apply andb_true_iff in Hl as [Hy Hyl].
    apply Forall_cons in Hb as [Hyb Hb].
    rewrite Hy, IH by done. rewrite andb_true_r. simpl.
    destruct l as [|z l]; [|exact Hyl]. simpl.
    unfold dated_before in Hyb. rewrite Hx.
    by destruct (created_at y).
Qed.

Lemma deliver_increasing_from (requests : list (option string * pyval * Z))
    (bound : Z) (coll : collection) :
  clock_increasing bound requests = true ->
  increasing (docs coll) = true ->
  Forall (fun doc => dated_before bound doc = true) (docs coll) ->
  increasing (docs (deliver requests coll)) = true.
Proof.
  revert bound coll.
  induction requests as [|[[event_type payload] now] rest IH];
    intros bound coll Hclock Hinc Hb; [done|].
  cbn [clock_increasing] in Hclock.
  apply andb_true_iff in Hclock as [Hnow Hrest]. apply Z.leb_le in Hnow.
  assert (Forall (fun doc => dated_before now doc = true) (docs coll)) as Hb'.
  { eapply Forall_impl; [exact Hb|]. intros doc. unfold dated_before.
    destruct (created_at doc) as [t|]; [|done].
    rewrite !Z.ltb_lt. lia. }
  assert (Forall (fun doc => dated_before (now + 1) doc = true) (docs coll))
    as Hb''.
  { eapply Forall_impl; [exact Hb'|]. intros doc. unfold dated_before.
    destruct (created_at doc) as [t|]; [|done].
    rewrite !Z.ltb_lt. lia. }
  cbn [deliver]. apply (IH (now + 1)); [done|..];
    destruct (webhook_effect event_type payload now coll)
      as [[_ ->]|(k & d & _ & _ & _ & ->)]; try done; cbn [docs].
  - apply (increasing_snoc _ _ now); [done|done|apply created_at_stored].
  - apply Forall_app. split; [done|]. constructor; [|done].
    unfold dated_before. rewrite created_at_stored. apply Z.ltb_lt. lia.
Qed.

(** X11: when the clock readings of the requests increase strictly, the
    dates of the documents stored from an empty collection increase in
    insertion order, and the read path returns the last 20 stored, the
    latest first. *)
Theorem deliver_then_get_events (requests : list (option string * pyval * Z))
    (bound : Z) :
  clock_increasing bound requests = true ->
  increasing (docs (deliver requests empty_collection)) = true /\
  get_events (deliver requests empty_collection) =
  project <$> take 20 (reverse (docs (deliver requests empty_collection))).
Proof.
  intros Hclock.
  assert (increasing (docs (deliver requests empty_collection)) = true) as Hinc
    by by apply (deliver_increasing_from requests bound).
  split; [done|]. unfold get_events. by rewrite sort_desc_increasing.
Qed.

(** X12: a request whose event header is missing, or is neither [push]
    nor [pull_request], is answered [ignored] whatever its body, an
    object or not, and stores nothing. *)
Theorem webhook_other_header_ignored (event_type : option string)
    (payload : pyval) (now : Z) (coll : collection) :
  header_is event_type "push" = false ->
  header_is event_type "pull_request" = false ->
  webhook event_type payload now coll = (Ignored, coll).
Proof.
  intros Hpush Hpr. unfold webhook, select_event. by rewrite Hpush, Hpr.
Qed.

Lemma persisted_ok_action (doc : pydict) :
  persisted_ok doc = true ->
  exists k, doc !! "action" = Some (VStr (action_name k)).
Proof.
  unfold persisted_ok. destruct (doc !! "action") as [[| | | |a| | | |]|]; try done.
  destruct (String.eqb_spec a "push") as [->|_]; [by exists KPush|].
  destruct (String.eqb_spec a "pull_request") as [->|_]; [by exists KPullRequest|].
  destruct (String.eqb_spec a "merge") as [->|_]; [by exists KMerge|done].
Qed.

(** X13: the dashboard never falls back to the icon [?].  Every event
    the read path returns from a collection that the handler filled has
    one of the three actions, for which [getEventIcon] gives [P], [PR] or
    [M]. *)
Theorem dashboard_icon_known (requests : list (option string * pyval * Z))
    (event : pydict) :
  event ∈ get_events (deliver requests empty_collection) ->
  exists k,
    event !! "action" = Some (VStr (action_name k)) /\
    getEventIcon (action_name k) = JsText (icon_of k).
Proof.
  intros Hin. unfold get_events in Hin.
  apply list_elem_of_fmap in Hin as (doc & -> & Hdoc).
  apply elem_of_take in Hdoc as (i & Hdoc & _).
  apply list_elem_of_lookup_2 in Hdoc. rewrite sort_desc_perm in Hdoc.
  pose proof (deliver_persisted_ok requests empty_collection
                (Forall_nil_2 _)) as Hok.
  rewrite Forall_forall in Hok.
  destruct (persisted_ok_action doc (Hok doc Hdoc)) as [k Hk].
  exists k. split; [|by destruct k].
  unfold project. by rewrite !lookup_delete_ne.
Qed.

End WebhookFurther.

(** X14: nothing is lost below the limit.  With at most 20 documents
    stored, the read path returns every one of them, projected, once. *)
Theorem get_events_all_when_few (coll : collection) :
  (length (docs coll) <= 20)%nat ->
  get_events coll ≡ₚ project <$> docs coll.
Proof.
  intros Hlen. unfold get_events.
  rewrite take_ge by (by rewrite (Permutation_length (sort_desc_perm _))).
  by rewrite sort_desc_perm.
Qed.

(** ** Closed instances *)

#[local] Existing Instance glibc_runtime.

(** C1 as stated fails: with [merged] the text ["yes"], which is not
    [true], the table of the specification ignores the request, and the
    handler stores a merge record; with [pull_request] set to [null] the
    table ignores the request as well, and the handler answers [error]. *)
Lemma webhook_dispatch_counterexample :
  dispatch_rule_claimed (Some "pull_request") (closed_sample (VStr "yes"))
    = RuleIgnore /\
  (webhook (Some "pull_request") (closed_sample (VStr "yes")) 7
     empty_collection).1 = Processed /\
  (fun doc => field doc "action") <$>
    docs (webhook (Some "pull_request") (closed_sample (VStr "yes")) 7
            empty_collection).2 = [VStr "merge"] /\
  dispatch_rule_claimed (Some "pull_request") closed_null_sample = RuleIgnore /\
  webhook (Some "pull_request") closed_null_sample 7 empty_collection
    = (Failed AttributeError, empty_collection).
Proof. repeat split; vm_compute; reflexivity. Qed.

(** C1, as amended, on the closed pull request that was not merged: it
    is ignored and nothing is stored. *)
Lemma webhook_dispatch_witness :
  routable (Some "pull_request") (closed_sample (VBool false)) = true /\
  webhook (Some "pull_request") (closed_sample (VBool false)) 7 empty_collection
    = (Ignored, empty_collection).
Proof.
  assert (routable (Some "pull_request") (closed_sample (VBool false)) = true)
    as Hr by (vm_compute; reflexivity).
  split; [exact Hr|].
  rewrite (webhook_dispatch _ _ 7 empty_collection Hr).
  vm_compute. reflexivity.
Defined.

(** C2 as stated fails: on the push of a deleted branch, whose
    [head_commit] is [null], the push normaliser raises; so does every
    normaliser on a payload that is not an object. *)
Lemma normalizers_total_counterexample :
  process_push_event branch_deleted_sample = Raise AttributeError /\
  process_pull_request_event (VList []) = Raise AttributeError /\
  process_merge_event (VDict {[ "pull_request" := VStr "42" ]})
    = Raise AttributeError.
Proof. repeat split; vm_compute; reflexivity. Qed.

(** C2, as amended, on a push without [pusher]. *)
Lemma normalizers_total_witness :
  shaped KPush push_sample = true /\
  exists rec,
    normalize KPush push_sample = Ok rec /\
    rec !! "author" = Some (VStr "Unknown") /\
    rec !! "to_branch" = Some (VStr "main").
Proof.
  assert (shaped KPush push_sample = true) as Hs by (vm_compute; reflexivity).
  split; [exact Hs|].
  destruct (normalizers_total_on_shaped KPush push_sample Hs)
    as (d & rec & Hd & Hn & Hrec & Hauthor).
  exists rec. split; [exact Hn|].
  injection Hd as <-. split.
  - apply Hauthor; [reflexivity | vm_compute; reflexivity].
  - rewrite Hrec. vm_compute. reflexivity.
Defined.

(** C3 as stated fails: a [Z] that is not the last character is replaced
    as well, so a text that does not end in [Z] and is no date is
    formatted. *)
Lemma format_timestamp_counterexample :
  format_timestamp (VStr "2024-03-15T14:30:00Z:00")
    = VStr "15 March 2024 - 02:30 PM UTC" /\
  format_timestamp_suffix_rule "2024-03-15T14:30:00Z:00"
    = "2024-03-15T14:30:00Z:00".
Proof. split; vm_compute; reflexivity. Qed.

(** C3, as amended, on the timestamp of the specification. *)
Lemma format_timestamp_witness :
  inner_Z "2024-03-15T14:30:00Z" = false /\
  format_timestamp (VStr "2024-03-15T14:30:00Z")
    = VStr (format_timestamp_suffix_rule "2024-03-15T14:30:00Z") /\
  format_timestamp_suffix_rule "2024-03-15T14:30:00Z"
    = "15 March 2024 - 02:30 PM UTC".
Proof.
  assert (inner_Z "2024-03-15T14:30:00Z" = false) as Hin by reflexivity.
  split; [exact Hin|]. split.
  - exact (proj1 (proj2 (format_timestamp_spec "2024-03-15T14:30:00Z" Hin))).
  - vm_compute. reflexivity.
Defined.

(** C5 on the opened pull request. *)
Lemma message_round_trip_witness :
  exists rec,
    normalize KPullRequest opened_sample = Ok rec /\
    rec !! "message" = Some (VStr (message_template KPullRequest rec)) /\
    message_template KPullRequest rec =
      "alice submitted a pull request from feature to main on 15 March 2024 - 02:30 PM UTC".
Proof.
  exists (record_of KPullRequest (opened_fields true)).
  assert (normalize KPullRequest opened_sample
          = Ok (record_of KPullRequest (opened_fields true))) as Hn
    by (vm_compute; reflexivity).
  split; [exact Hn|]. split.
  - exact (message_round_trip KPullRequest opened_sample _ Hn).
  - vm_compute. reflexivity.
Defined.

(** C7 on twenty-five pushes: the twenty latest, the latest first. *)
Lemma get_events_latest_witness :
  increasing (docs (deliver pushes_25 empty_collection)) = true /\
  length (docs (deliver pushes_25 empty_collection)) = 25%nat /\
  created_at <$> get_events (deliver pushes_25 empty_collection) =
    Some <$> [25; 24; 23; 22; 21; 20; 19; 18; 17; 16;
              15; 14; 13; 12; 11; 10; 9; 8; 7; 6].
Proof.
  assert (increasing (docs (deliver pushes_25 empty_collection)) = true)
    as Hinc by (vm_compute; reflexivity).
  assert (length (docs (deliver pushes_25 empty_collection)) = 25%nat)
    as Hlen by (vm_compute; reflexivity).
  split; [exact Hinc|]. split; [exact Hlen|].
  destruct (get_events_latest (deliver pushes_25 empty_collection))
    as (_ & _ & _ & _ & _ & _ & Hlast).
  rewrite (Hlast Hinc Hlen). vm_compute. reflexivity.
Defined.


(** C9 on a payload that both normalisers accept. *)
Lemma pull_request_and_merge_agree_witness :
  exists r1 r2,
    process_pull_request_event opened_sample = Ok r1 /\
    process_merge_event opened_sample = Ok r2 /\
    r2 !! "id" = r1 !! "id" /\
    r2 !! "from_branch" = r1 !! "from_branch" /\
    r2 !! "to_branch" = r1 !! "to_branch" /\
    r1 !! "id" = Some (VStr "1296269").
Proof.
  exists (record_of KPullRequest (opened_fields true)),
         (record_of KMerge (opened_fields true)).
  assert (process_pull_request_event opened_sample
          = Ok (record_of KPullRequest (opened_fields true))) as H1
    by (vm_compute; reflexivity).
  assert (process_merge_event opened_sample
          = Ok (record_of KMerge (opened_fields true))) as H2
    by (vm_compute; reflexivity).
  split; [exact H1|]. split; [exact H2|].
  destruct (pull_request_and_merge_agree opened_sample _ _ H1 H2)
    as (d & _ & _ & _ & _ & Hid & Hfrom & Hto).
  split; [exact Hid|]. split; [exact Hfrom|]. split; [exact Hto|].
  vm_compute. reflexivity.
Defined.

(** C10 on a pull request without [id]. *)
Lemma absent_id_is_empty_witness :
  id_source KPullRequest (opened_fields false) = None /\
  exists rec,
    normalize KPullRequest (VDict (opened_fields false)) = Ok rec /\
    rec !! "id" = Some (VStr "").
Proof.
  assert (id_source KPullRequest (opened_fields false) = None) as Hid
    by (vm_compute; reflexivity).
  assert (normalize KPullRequest (VDict (opened_fields false))
          = Ok (record_of KPullRequest (opened_fields false))) as Hn
    by (vm_compute; reflexivity).
  split; [exact Hid|]. eexists. split; [exact Hn|].
  exact (absent_id_is_empty KPullRequest _ _ Hn Hid).
Defined.

(** X1 on the timestamp of a push. *)
Lemma format_timestamp_isoformat_Z_witness :
  valid (mk 2024 3 15 14 30 0 0 None) = true /\
  isoformat_Z 2024 3 15 14 30 0 = "2024-03-15T14:30:00Z" /\
  format_timestamp (VStr (isoformat_Z 2024 3 15 14 30 0))
    = VStr "15 March 2024 - 02:30 PM UTC".
Proof.
  assert (valid (mk 2024 3 15 14 30 0 0 None) = true) as Hv
    by (vm_compute; reflexivity).
  split; [exact Hv|]. split; [vm_compute; reflexivity|].
  rewrite (format_timestamp_isoformat_Z 2024 3 15 14 30 0 Hv).
  vm_compute. reflexivity.
Defined.

(** X2 on an afternoon in India: 14:30 at [+05:30] is 09:00 UTC, and is
    rendered as 02:30 PM UTC. *)
Lemma format_timestamp_ignores_offset_witness :
  isoformat_offset 2024 3 15 14 30 0 "+" 5 30 = "2024-03-15T14:30:00+05:30" /\
  format_timestamp (VStr (isoformat_offset 2024 3 15 14 30 0 "+" 5 30))
    = VStr "15 March 2024 - 02:30 PM UTC".
Proof.
  split; [vm_compute; reflexivity|].
  rewrite (format_timestamp_ignores_offset 2024 3 15 14 30 0 "+" 5 30);
    [vm_compute; reflexivity | vm_compute; reflexivity | reflexivity | lia | lia].
Defined.

(** X4 on the empty push payload. *)
Lemma absent_fields_default_witness :
  normalize KPush (VDict ∅) = Ok (record_of KPush ∅) /\
  record_of KPush ∅ !! "author" = Some (VStr "Unknown") /\
  record_of KPush ∅ !! "to_branch" = Some (VStr "") /\
  record_of KPush ∅ !! "timestamp" = Some (VStr "") /\
  record_of KPush ∅ !! "from_branch" = None.
Proof.
  assert (normalize KPush (VDict ∅) = Ok (record_of KPush ∅)) as Hn
    by (vm_compute; reflexivity).
  split; [exact Hn|].
  destruct (absent_fields_default KPush ∅ _ Hn) as (Ha & Hb & Ht & Hf).
  split; [apply Ha; vm_compute; reflexivity|].
  split; [apply Hb; vm_compute; reflexivity|].
  split; [apply Ht; vm_compute; reflexivity|].
  apply Hf; vm_compute; reflexivity.
Defined.

(** X5 on the opened pull request. *)
Lemma record_keys_and_texts_witness :
  exists rec,
    normalize KPullRequest opened_sample = Ok rec /\
    dom rec = record_keys KPullRequest /\
    rec !! "action" = Some (VStr "pull_request") /\
    is_text (rec !! "message") = true /\
    is_text (rec !! "id") = true.
Proof.
  exists (record_of KPullRequest (opened_fields true)).
  assert (normalize KPullRequest opened_sample
          = Ok (record_of KPullRequest (opened_fields true))) as Hn
    by (vm_compute; reflexivity).
  split; [exact Hn|].
  exact (record_keys_and_texts KPullRequest opened_sample _ Hn).
Defined.

(** X6 on a push to [main]. *)
Lemma push_to_branch_of_ref_witness :
  exists rec,
    process_push_event push_sample = Ok rec /\
    occurs "refs/heads/" "main" = false /\
    rec !! "to_branch" = Some (VStr "main").
Proof.
  exists (record_of KPush push_fields).
  assert (process_push_event push_sample = Ok (record_of KPush push_fields))
    as Hn by (vm_compute; reflexivity).
  assert (occurs "refs/heads/" "main" = false) as Hocc
    by (vm_compute; reflexivity).
  split; [exact Hn|]. split; [exact Hocc|].
  apply (proj1 (push_to_branch_of_ref push_fields _ "main" Hn Hocc)).
  vm_compute. reflexivity.
Defined.

(** X7 on the opened pull request. *)
Lemma pull_request_id_decimal_witness :
  exists rec,
    normalize KPullRequest opened_sample = Ok rec /\
    sub (opened_fields true) "pull_request" !! "id" = Some (VInt 1296269) /\
    rec !! "id" = Some (VStr "1296269").
Proof.
  exists (record_of KPullRequest (opened_fields true)).
  assert (normalize KPullRequest opened_sample
          = Ok (record_of KPullRequest (opened_fields true))) as Hn
    by (vm_compute; reflexivity).
  assert (sub (opened_fields true) "pull_request" !! "id" = Some (VInt 1296269))
    as Hid by (vm_compute; reflexivity).
  split; [exact Hn|]. split; [exact Hid|].
  assert (KPullRequest <> KPush) as Hk by discriminate.
  rewrite (proj1 (pull_request_id_decimal KPullRequest _ _ _ _ _ _
                    Hk Hn Hn Hid Hid)).
  vm_compute. reflexivity.
Defined.

(** X10 on an opened pull request that arrives after a push. *)
Lemma webhook_then_get_events_witness :
  created_at <$> docs (webhook (Some "push") push_sample 7 empty_collection).2
    = [Some 7] /\
  (exists k rec,
     rule_kind (dispatch_rule (Some "pull_request") opened_sample) = Some k /\
     normalize k opened_sample = Ok rec /\
     get_events
       (webhook (Some "pull_request") opened_sample 9
          (webhook (Some "push") push_sample 7 empty_collection).2).2 =
     <["created_at" := VDatetime 9]> rec ::
       take 19 (get_events
                  (webhook (Some "push") push_sample 7 empty_collection).2)) /\
  (fun event => field event "action") <$>
    get_events
      (webhook (Some "pull_request") opened_sample 9
         (webhook (Some "push") push_sample 7 empty_collection).2).2 =
  [VStr "pull_request"; VStr "push"].
Proof.
  assert ((webhook (Some "pull_request") opened_sample 9
             (webhook (Some "push") push_sample 7 empty_collection).2).1
          = Processed) as Hyes by (vm_compute; reflexivity).
  assert (Forall (fun doc => older_than 9 doc = true)
            (docs (webhook (Some "push") push_sample 7 empty_collection).2))
    as Hold.
  { apply Forall_fold_right. vm_compute. split; [reflexivity|exact I]. }
  assert (created_at <$>
            docs (webhook (Some "push") push_sample 7 empty_collection).2
          = [Some 7]) as Hdates by (vm_compute; reflexivity).
  assert (distinct_dates
            (docs (webhook (Some "push") push_sample 7 empty_collection).2))
    as Hnd.
  { unfold distinct_dates. rewrite Hdates. apply NoDup_singleton. }
  split; [exact Hdates|]. split.
  - destruct (webhook_then_get_events _ _ _ _ Hyes Hold Hnd)
      as (k & rec & Hk & Hn & Hget & _).
    exists k, rec. split; [exact Hk|]. split; [exact Hn|exact Hget].
  - vm_compute. reflexivity.
Defined.

(** X11 on twenty-five pushes. *)
Lemma deliver_then_get_events_witness :
  clock_increasing 1 pushes_25 = true /\
  increasing (docs (deliver pushes_25 empty_collection)) = true /\
  get_events (deliver pushes_25 empty_collection) =
  project <$> take 20 (reverse (docs (deliver pushes_25 empty_collection))).
Proof.
  assert (clock_increasing 1 pushes_25 = true) as Hclock
    by (vm_compute; reflexivity).
  split; [exact Hclock|].
  exact (deliver_then_get_events pushes_25 1 Hclock).
Defined.

(** X12 on a header that differs from [push] in its case only. *)
Lemma webhook_other_header_ignored_witness :
  webhook (Some "Push") push_sample 7 empty_collection
    = (Ignored, empty_collection) /\
  webhook None push_sample 7 empty_collection = (Ignored, empty_collection).
Proof.
  split.
  - apply webhook_other_header_ignored; vm_compute; reflexivity.
  - apply webhook_other_header_ignored; vm_compute; reflexivity.
Defined.

(** X13 on an opened pull request. *)
Lemma dashboard_icon_known_witness :
  exists event,
    event ∈ get_events (deliver [(Some "pull_request", opened_sample, 7)]
                          empty_collection) /\
    event !! "action" = Some (VStr "pull_request") /\
    getEventIcon "pull_request" = JsText "PR".
Proof.
  exists (<["created_at" := VDatetime 7]>
            (record_of KPullRequest (opened_fields true))).
  assert (get_events (deliver [(Some "pull_request", opened_sample, 7)]
                        empty_collection)
          = [<["created_at" := VDatetime 7]>
               (record_of KPullRequest (opened_fields true))]) as Hget
    by (vm_compute; reflexivity).
  assert (<["created_at" := VDatetime 7]>
            (record_of KPullRequest (opened_fields true))
          ∈ get_events (deliver [(Some "pull_request", opened_sample, 7)]
                          empty_collection)) as Hin.
  { rewrite Hget. apply list_elem_of_here. }
  split; [exact Hin|].
  destruct (dashboard_icon_known _ _ Hin) as (k & Hact & Hicon).
  assert ((<["created_at" := VDatetime 7]>
             (record_of KPullRequest (opened_fields true)) : pydict)
            !! "action" = Some (VStr "pull_request")) as Hp
    by (vm_compute; reflexivity).
  rewrite Hp in Hact. destruct k; try discriminate Hact.
  split; [exact Hp | exact Hicon].
Defined.

(** X14 on a collection of one push. *)
Lemma get_events_all_when_few_witness :
  get_events (webhook (Some "push") push_sample 7 empty_collection).2 ≡ₚ
  project <$> docs (webhook (Some "push") push_sample 7 empty_collection).2.
Proof.
  apply get_events_all_when_few. vm_compute. lia.
Defined.
